(** * WrenAI service: the ask-indexing pipeline and the semantics-description
    pipeline, as pure functions over parsed JSON.

    Sources embedded here:
    - [src/pipelines/ask/indexing_pipeline.py]: [DocumentCleaner],
      [MDLValidator], [ViewConverter], [DDLConverter], [Indexing];
    - [src/pipelines/generation/semantics_description.py]: [picked_models],
      [normalize], [output].

    The Python code works on whatever [orjson.loads] returns, so the data is a
    universe of JSON values and every subscript, membership test and method
    call is an operation that may raise.  Exceptions are values of [exn] and
    a computation that may raise has type [result A]. *)

From Stdlib Require Import ZArith Ascii String List Lia.
From stdpp Require Import base tactics option list strings gmap pretty.

(** ** Python values *)

(** What [orjson.loads] produces: [None], [bool], [int], [str], [list] and
    [dict] with string keys, the dict as an association list in insertion
    order (keys are unique).  A [str] is a sequence of characters, one
    [ascii] per character.  Float literals are outside this universe. *)
#[warnings="-register-all"]
Inductive value : Type :=
| VNone : value
| VBool : bool -> value
| VInt : Z -> value
| VStr : string -> value
| VList : list value -> value
| VDict : list (string * value) -> value.

(** The exceptions the modelled code can raise; [KeyError] carries the key. *)
Inductive exn : Type :=
| KeyError : value -> exn
| IndexError : exn
| TypeError : exn
| AttributeError : exn
| ValueError : string -> exn.

Inductive result (A : Type) : Type :=
| Ok : A -> result A
| Err : exn -> result A.
Arguments Ok {A} _.
Arguments Err {A} _.

Definition bind {A B : Type} (m : result A) (k : A -> result B) : result B :=
  match m with
  | Ok a => k a
  | Err e => Err e
  end.

Notation "'let*' x ':=' m 'in' k" := (bind m (fun x => k))
  (at level 10, x name, m at level 100, k at level 200).

(** A list comprehension [[f x for x in l if cond x]]; [cond] and [f] are
    evaluated element by element, left to right, and the first exception
    ends the whole comprehension. *)
Fixpoint comprehension {A B : Type} (cond : A -> result bool) (f : A -> result B)
  (l : list A) : result (list B) :=
  match l with
  | [] => Ok []
  | x :: r =>
      let* c := cond x in
      if c : bool then
        let* y := f x in
        let* ys := comprehension cond f r in
        Ok (y :: ys)
      else comprehension cond f r
  end.

(** [[f x for x in l]], and a [for] loop that appends one item per turn. *)
Fixpoint mapM {A B : Type} (f : A -> result B) (l : list A) : result (list B) :=
  match l with
  | [] => Ok []
  | x :: r =>
      let* y := f x in
      let* ys := mapM f r in
      Ok (y :: ys)
  end.

(** A [for] loop over [l] that updates a local variable of type [S]. *)
Fixpoint foldM {A S : Type} (body : S -> A -> result S) (l : list A) (s : S)
  : result S :=
  match l with
  | [] => Ok s
  | x :: r => let* s' := body s x in foldM body r s'
  end.

(** [a and b] where both operands may raise: [b] is evaluated only when [a]
    is true. *)
Definition and_then (a b : result bool) : result bool :=
  let* x := a in if x : bool then b else Ok false.

(** ** Strings *)

Definition LF : ascii := "010"%char.
Definition nl : string := String LF "".

Module Str.

(** [sep.join(l)] *)
Fixpoint join (sep : string) (l : list string) : string :=
  match l with
  | [] => ""
  | [x] => x
  | x :: r => x +:+ sep +:+ join sep r
  end.

Fixpoint prefix (p s : string) : bool :=
  match p, s with
  | EmptyString, _ => true
  | String a p', String b s' => if Ascii.eqb a b then prefix p' s' else false
  | String _ _, EmptyString => false
  end.

(** [sub in s] for two strings. *)
Fixpoint contains (sub s : string) : bool :=
  prefix sub s ||
  match s with
  | EmptyString => false
  | String _ s' => contains sub s'
  end.

(** [s.find(sub)]: the position of the first occurrence. *)
Fixpoint find (sub s : string) : option nat :=
  if prefix sub s then Some 0
  else match s with
       | EmptyString => None
       | String _ s' => S <$> find sub s'
       end.

(** [s.split(sep)] for a non-empty [sep]: scan left to right, cut at each
    occurrence of [sep] and resume after it.  [skip] counts the characters
    of a separator still to be passed over, [cur] is the piece being read. *)
Fixpoint split_go (sep s : string) (skip : nat) (cur : string) : list string :=
  match s with
  | EmptyString => [cur]
  | String c s' =>
      match skip with
      | S k => split_go sep s' k cur
      | O =>
          if prefix sep s
          then cur :: split_go sep s' (String.length sep - 1) ""
          else split_go sep s' 0 (cur +:+ String c "")
      end
  end.

Definition split (sep s : string) : list string := split_go sep s 0 "".

Definition upper_char (c : ascii) : ascii :=
  let n := nat_of_ascii c in
  if (97 <=? n)%nat && (n <=? 122)%nat then ascii_of_nat (n - 32) else c.

(** [s.upper()] on the letters a-z.  The code only compares the result with
    the three join-type names, and no other character upper-cases into one
    of their letters. *)
Fixpoint upper (s : string) : string :=
  match s with
  | EmptyString => EmptyString
  | String c s' => String (upper_char c) (upper s')
  end.

(** The characters of a string, each as a string of length one. *)
Fixpoint chars (s : string) : list string :=
  match s with
  | EmptyString => []
  | String c s' => String c "" :: chars s'
  end.

(** [str.isspace] on one character. *)
Definition is_space (c : ascii) : bool :=
  let n := nat_of_ascii c in
  ((9 <=? n)%nat && (n <=? 13)%nat) || ((28 <=? n)%nat && (n <=? 32)%nat)
  || (n =? 133)%nat || (n =? 160)%nat.

(** [s.replace("\n", " ")] *)
Fixpoint replace_newlines (s : string) : string :=
  match s with
  | EmptyString => EmptyString
  | String c s' =>
      String (if Ascii.eqb c LF then " "%char else c) (replace_newlines s')
  end.

(** [s.split()] with no argument: the maximal runs of non-space characters. *)
Fixpoint words_go (s : string) (cur : string) : list string :=
  match s with
  | EmptyString => if String.eqb cur "" then [] else [cur]
  | String c s' =>
      if is_space c
      then (if String.eqb cur "" then words_go s' "" else cur :: words_go s' "")
      else words_go s' (cur +:+ String c "")
  end.

Definition words (s : string) : list string := words_go s "".

Fixpoint lstrip (s : string) : string :=
  match s with
  | EmptyString => EmptyString
  | String c s' => if is_space c then lstrip s' else s
  end.

Fixpoint rstrip (s : string) : string :=
  match s with
  | EmptyString => EmptyString
  | String c s' =>
      match rstrip s' with
      | EmptyString => if is_space c then EmptyString else String c EmptyString
      | t => String c t
      end
  end.

(** [s.strip()] *)
Definition strip (s : string) : string := rstrip (lstrip s).

End Str.


(** ** The object protocol on values *)

Module Py.

(** A dict as the parser builds it: string keys, insertion order. *)
Fixpoint dict_lookup (k : string) (d : list (string * value)) : option value :=
  match d with
  | [] => None
  | (k', v) :: r => if String.eqb k k' then Some v else dict_lookup k r
  end.

(** [d[k] = v]: an existing key keeps its place, a new one goes last. *)
Fixpoint dict_set (k : string) (v : value) (d : list (string * value))
  : list (string * value) :=
  match d with
  | [] => [(k, v)]
  | (k', v') :: r =>
      if String.eqb k k' then (k, v) :: r else (k', v') :: dict_set k v r
  end.

(** [a == b].  [bool] is a subtype of [int] ([True == 1]); lists compare
    element by element, dicts key by key whatever the order. *)
Fixpoint equal (a b : value) {struct a} : bool :=
  match a, b with
  | VNone, VNone => true
  | VBool x, VBool y => Bool.eqb x y
  | VBool x, VInt n => (n =? (if x then 1 else 0))%Z
  | VInt n, VBool x => (n =? (if x then 1 else 0))%Z
  | VInt m, VInt n => (m =? n)%Z
  | VStr s, VStr t => String.eqb s t
  | VList xs, VList ys =>
      (fix go (xs ys : list value) : bool :=
         match xs, ys with
         | [], [] => true
         | x :: xs', y :: ys' => equal x y && go xs' ys'
         | _, _ => false
         end) xs ys
  | VDict d, VDict e =>
      (length d =? length e)%nat &&
      (fix go (d : list (string * value)) : bool :=
         match d with
         | [] => true
         | (k, v) :: r =>
             match dict_lookup k e with
             | Some w => equal v w
             | None => false
             end && go r
         end) d
  | _, _ => false
  end.

(** [bool(v)] *)
Definition truthy (v : value) : bool :=
  match v with
  | VNone => false
  | VBool b => b
  | VInt n => negb (n =? 0)%Z
  | VStr s => negb (String.eqb s "")
  | VList l => match l with [] => false | _ => true end
  | VDict d => match d with [] => false | _ => true end
  end.

(** Lists and dicts cannot be dict keys. *)
Definition hashable (v : value) : bool :=
  match v with
  | VList _ | VDict _ => false
  | _ => true
  end.

(** [v[k]] for a string key [k]. *)
Definition getitem (v : value) (k : string) : result value :=
  match v with
  | VDict d =>
      match dict_lookup k d with
      | Some x => Ok x
      | None => Err (KeyError (VStr k))
      end
  | _ => Err TypeError
  end.

(** [v[k] = x] for a string key [k]: only a dict takes it. *)
Definition setitem (v : value) (k : string) (x : value) : result value :=
  match v with
  | VDict d => Ok (VDict (dict_set k x d))
  | _ => Err TypeError
  end.

(** [**v] inside a dict display: only a dict is a mapping. *)
Definition mapping (v : value) : result (list (string * value)) :=
  match v with
  | VDict d => Ok d
  | _ => Err TypeError
  end.

(** [v[i]] for an index [i >= 0]. *)
Definition getindex (v : value) (i : nat) : result value :=
  match v with
  | VList l =>
      match l !! i with
      | Some x => Ok x
      | None => Err IndexError
      end
  | VStr s =>
      match Str.chars s !! i with
      | Some c => Ok (VStr c)
      | None => Err IndexError
      end
  | VDict _ => Err (KeyError (VInt (Z.of_nat i)))
  | _ => Err TypeError
  end.

(** [l[i]] on a list of strings, as [str.split] returns. *)
Definition nth_str (l : list string) (i : nat) : result string :=
  match l !! i with
  | Some x => Ok x
  | None => Err IndexError
  end.

(** [x in v] *)
Definition contains (x v : value) : result bool :=
  match v with
  | VDict d =>
      match x with
      | VStr k => Ok (bool_decide (is_Some (dict_lookup k d)))
      | VList _ | VDict _ => Err TypeError
      | _ => Ok false
      end
  | VList l => Ok (existsb (fun y => equal y x) l)
  | VStr s =>
      match x with
      | VStr sub => Ok (Str.contains sub s)
      | _ => Err TypeError
      end
  | _ => Err TypeError
  end.

(** ["k" in v] for a string literal. *)
Definition has_key (k : string) (v : value) : result bool :=
  contains (VStr k) v.

(** [for x in v]: the elements iteration yields. *)
Definition iter (v : value) : result (list value) :=
  match v with
  | VList l => Ok l
  | VDict d => Ok (map (fun kv => VStr (fst kv)) d)
  | VStr s => Ok (map VStr (Str.chars s))
  | _ => Err TypeError
  end.

(** [v.get(k, default)]: only a dict has the method. *)
Definition get (v : value) (k : string) (default : value) : result value :=
  match v with
  | VDict d => Ok (match dict_lookup k d with Some x => x | None => default end)
  | _ => Err AttributeError
  end.

(** [v.upper()] and [v.split(sep)]: only a [str] has the methods. *)
Definition upper (v : value) : result string :=
  match v with
  | VStr s => Ok (Str.upper s)
  | _ => Err AttributeError
  end.

Definition split (v : value) (sep : string) : result (list string) :=
  match v with
  | VStr s => Ok (Str.split sep s)
  | _ => Err AttributeError
  end.

Fixpoint list_index (x : value) (l : list value) : option nat :=
  match l with
  | [] => None
  | y :: r => if equal y x then Some 0 else S <$> list_index x r
  end.

(** [v.index(x)]: the first position of [x] in a list, of the substring [x]
    in a [str]; [ValueError] when there is none (the list's message also
    quotes [x], which is left out here: the code calls [index] only after
    [x in v] held). *)
Definition index (v x : value) : result nat :=
  match v with
  | VList l =>
      match list_index x l with
      | Some i => Ok i
      | None => Err (ValueError "is not in list")
      end
  | VStr s =>
      match x with
      | VStr sub =>
          match Str.find sub s with
          | Some i => Ok i
          | None => Err (ValueError "substring not found")
          end
      | _ => Err TypeError
      end
  | _ => Err AttributeError
  end.

(** A dict whose keys are arbitrary hashable values, as a dict comprehension
    builds it: [pydict_set] is [d[k] = v] and raises on an unhashable key. *)
Definition pydict : Type := list (value * value).

Fixpoint pydict_lookup (k : value) (d : pydict) : option value :=
  match d with
  | [] => None
  | (k', v) :: r => if equal k' k then Some v else pydict_lookup k r
  end.

Fixpoint pydict_insert (k v : value) (d : pydict) : pydict :=
  match d with
  | [] => [(k, v)]
  | (k', v') :: r =>
      if equal k' k then (k', v) :: r else (k', v') :: pydict_insert k v r
  end.

Definition pydict_set (k v : value) (d : pydict) : result pydict :=
  if hashable k then Ok (pydict_insert k v d) else Err TypeError.

(** [d[k]] *)
Definition pydict_getitem (d : pydict) (k : value) : result value :=
  if hashable k then
    match pydict_lookup k d with
    | Some v => Ok v
    | None => Err (KeyError k)
    end
  else Err TypeError.

(** [k in d] *)
Definition pydict_contains (k : value) (d : pydict) : result bool :=
  if hashable k then Ok (bool_decide (is_Some (pydict_lookup k d)))
  else Err TypeError.

End Py.

(** [str(i)] for a position [i] that [enumerate] or [range] yields. *)
Definition str (i : nat) : string := pretty i.

(** ** Library functions the code calls *)

(** The result of [orjson.loads] on a text: the value, or the message of the
    [JSONDecodeError] it raises. *)
Inductive loaded : Type :=
| Loaded : value -> loaded
| JSONDecodeError : string -> loaded.

(** A haystack [Document] as the converters build it. *)
Module Document.
Record t : Type := mk { id : string; meta : list (string * string); content : string }.
End Document.

(** The functions taken from outside the repository.  Every definition and
    theorem below is stated for an arbitrary [Runtime]. *)
Class Runtime : Type := {
  (** [orjson.loads(text)] *)
  orjson_loads : string -> loaded;
  (** [orjson.dumps(v).decode("utf-8")] *)
  orjson_dumps : value -> string;
  (** [str(v)] for a value that is not itself a [str] *)
  py_str : value -> string;
  (** the document embedder's [run], which may fail *)
  embedder : list Document.t -> result (list Document.t)
}.

(** [f"{v}"]: a [str] is inserted as it is, anything else through [str()]. *)
Definition fmt `{Runtime} (v : value) : string :=
  match v with
  | VStr s => s
  | _ => py_str v
  end.

(** [[Document(id=str(i), meta={"id": str(i)}, content=c)
      for i, c in enumerate(contents)]] *)
Definition documents (contents : list string) : list Document.t :=
  imap (fun i c => Document.mk (str i) [("id", str i)] c) contents.

(** ** [DDLConverter] *)

Module DDLConverter.
Section WithRuntime.
Context `{RT : Runtime}.

(** [if k in src: d[k] = src[k]] *)
Definition copy_if_present (k : string) (src : value) (d : list (string * value))
  : result (list (string * value)) :=
  let* p := Py.has_key k src in
  if p : bool then
    let* v := Py.getitem src k in
    Ok (Py.dict_set k v d)
  else Ok d.

(** The body of the inner loop of [run]: the [ddl_column] of one column. *)
Definition ddl_column (column : value) : result value :=
  let* name := Py.getitem column "name" in
  let* type := Py.getitem column "type" in
  let* d := copy_if_present "properties" column [("name", name); ("type", type)] in
  let* d := copy_if_present "relationship" column d in
  let* d := copy_if_present "expression" column d in
  let* d := copy_if_present "isCalculated" column d in
  Ok (VDict d).

(** The body of the outer loop of [run]: the entry appended to
    [semantics["models"]]. *)
Definition semantic_model (model : value) : result value :=
  let* cs := Py.getitem model "columns" in
  let* cs := Py.iter cs in
  let* columns := mapM ddl_column cs in
  let* name := Py.getitem model "name" in
  let* p := Py.has_key "properties" model in
  let* properties :=
    if p : bool then Py.getitem model "properties" else Ok (VDict []) in
  let* primaryKey := Py.getitem model "primaryKey" in
  Ok (VDict [("type", VStr "model"); ("name", name); ("properties", properties);
             ("columns", VList columns); ("primaryKey", primaryKey)]).

(** [{model["name"]: model["primaryKey"] for model in models}] *)
Definition primary_keys_map (models : list value) : result Py.pydict :=
  foldM (fun m model =>
           let* name := Py.getitem model "name" in
           let* primaryKey := Py.getitem model "primaryKey" in
           Py.pydict_set name primaryKey m) models [].

(** One turn of the loop over [model["columns"]]: a column that carries
    "relationship" adds nothing, any other adds its line to [columns_ddl]. *)
Definition column_ddl (model : value) (columns_ddl : list string) (column : value)
  : result (list string) :=
  let* rel := Py.has_key "relationship" column in
  if rel : bool then Ok columns_ddl
  else
    let* p := Py.has_key "properties" column in
    let* comment :=
      if p : bool then
        let* props := Py.getitem column "properties" in
        Ok ("-- " +:+ orjson_dumps props +:+ nl +:+ "  ")
      else Ok "" in
    let* calc := and_then (Py.has_key "isCalculated" column)
                   (let* c := Py.getitem column "isCalculated" in Ok (Py.truthy c)) in
    let* comment :=
      if calc : bool then
        let* e := Py.getitem column "expression" in
        Ok (comment +:+ "-- This column is a Calculated Field" +:+ nl
            +:+ "  -- column expression: " +:+ fmt e +:+ nl +:+ "  ")
      else Ok comment in
    let* column_name := Py.getitem column "name" in
    let* column_type := Py.getitem column "type" in
    let line := comment +:+ fmt column_name +:+ " " +:+ fmt column_type in
    let* pk := Py.get model "primaryKey" (VStr "") in
    Ok (columns_ddl ++
        [if Py.equal column_name pk then line +:+ " PRIMARY KEY" else line]).

(** [relationship["joinType"].upper() == name] *)
Definition join_type_is (relationship : value) (name : string) : result bool :=
  let* jt := Py.getitem relationship "joinType" in
  let* u := Py.upper jt in
  Ok (String.eqb u name).

(** [relationship["condition"].split(" = ")[i].split(".")[1]] *)
Definition fk_column (relationship : value) (i : nat) : result string :=
  let* c := Py.getitem relationship "condition" in
  let* sides := Py.split c " = " in
  let* side := Py.nth_str sides i in
  Py.nth_str (Str.split "." side) 1.

(** [f"FOREIGN KEY ({fk_column}) REFERENCES
      {related_table}({primary_keys_map[related_table]})"] *)
Definition fk_constraint (pk_map : Py.pydict) (column : string) (related_table : value)
  : result string :=
  let* pk := Py.pydict_getitem pk_map related_table in
  Ok ("FOREIGN KEY (" +:+ column +:+ ") REFERENCES " +:+ fmt related_table
      +:+ "(" +:+ fmt pk +:+ ")").

(** [[m for m in models if m != table_name][0]] *)
Definition other_model (models table_name : value) : result value :=
  let* ms := Py.iter models in
  match filter (fun m => Py.equal m table_name = false) ms with
  | m :: _ => Ok m
  | [] => Err IndexError
  end.

(** One turn of the loop over [relationships]: the [if]/[elif]/[elif] on the
    table's place in [relationship["models"]] and on the join type.
    [relationship["models"]] is read once here; the code reads it again in
    each test. *)
Definition foreign_key (pk_map : Py.pydict) (table_name : value)
  (columns_ddl : list string) (relationship : value) : result (list string) :=
  let* models := Py.getitem relationship "models" in
  let* many_to_one :=
    and_then (let* m0 := Py.getindex models 0 in Ok (Py.equal table_name m0))
             (join_type_is relationship "MANY_TO_ONE") in
  if many_to_one : bool then
    let* related_table := Py.getindex models 1 in
    let* column := fk_column relationship 0 in
    let* fk := fk_constraint pk_map column related_table in
    Ok (columns_ddl ++ [fk])
  else
    let* one_to_many :=
      and_then (let* m1 := Py.getindex models 1 in Ok (Py.equal table_name m1))
               (join_type_is relationship "ONE_TO_MANY") in
    if one_to_many : bool then
      let* related_table := Py.getindex models 0 in
      let* column := fk_column relationship 1 in
      let* fk := fk_constraint pk_map column related_table in
      Ok (columns_ddl ++ [fk])
    else
      let* one_to_one :=
        and_then (Py.contains table_name models)
                 (join_type_is relationship "ONE_TO_ONE") in
      if one_to_one : bool then
        let* index := Py.index models table_name in
        let* related_table := other_model models table_name in
        let* column := fk_column relationship index in
        let* fk := fk_constraint pk_map column related_table in
        Ok (columns_ddl ++ [fk])
      else Ok columns_ddl.

(** The body of the loop over [models]: the CREATE TABLE block of one model. *)
Definition create_table (pk_map : Py.pydict) (relationships : value) (model : value)
  : result string :=
  let* table_name := Py.getitem model "name" in
  let* cs := Py.getitem model "columns" in
  let* cs := Py.iter cs in
  let* columns_ddl := foldM (column_ddl model) cs [] in
  let* rs := Py.iter relationships in
  let* columns_ddl := foldM (foreign_key pk_map table_name) rs columns_ddl in
  let* p := Py.has_key "properties" model in
  let* comment :=
    if p : bool then
      let* props := Py.getitem model "properties" in
      Ok (nl +:+ "/* " +:+ orjson_dumps props +:+ " */" +:+ nl)
    else Ok "" in
  Ok (comment +:+ "CREATE TABLE " +:+ fmt table_name +:+ " (" +:+ nl +:+ "  "
      +:+ Str.join ("," +:+ nl +:+ "  ") columns_ddl +:+ nl +:+ ");").

Definition _convert_models_and_relationships (models : list value)
  (relationships : value) : result (list string) :=
  let* pk_map := primary_keys_map models in
  mapM (create_table pk_map relationships) models.

(** The inner function of [_convert_views]. *)
Definition _format (view : value) : result string :=
  let* p := Py.has_key "properties" view in
  let* properties :=
    if p : bool then Py.getitem view "properties" else Ok (VStr "") in
  let* name := Py.getitem view "name" in
  let* statement := Py.getitem view "statement" in
  Ok ("/* " +:+ fmt properties +:+ " */" +:+ nl +:+ "CREATE VIEW "
      +:+ fmt name +:+ nl +:+ "AS (" +:+ fmt statement +:+ ")").

Definition _convert_views (views : value) : result (list string) :=
  let* vs := Py.iter views in
  mapM _format vs.

Definition dimension_ddl (dimension : value) : result string :=
  let* column_name := Py.getitem dimension "name" in
  let* column_type := Py.getitem dimension "type" in
  Ok ("-- This column is a dimension" +:+ nl +:+ "  "
      +:+ fmt column_name +:+ " " +:+ fmt column_type).

Definition measure_ddl (measure : value) : result string :=
  let* column_name := Py.getitem measure "name" in
  let* column_type := Py.getitem measure "type" in
  let* e := Py.getitem measure "expression" in
  Ok ("-- This column is a measure" +:+ nl +:+ "  -- expression: " +:+ fmt e
      +:+ nl +:+ "  " +:+ fmt column_name +:+ " " +:+ fmt column_type).

Definition metric_table (metric : value) : result string :=
  let* table_name := Py.getitem metric "name" in
  let* ds := Py.getitem metric "dimension" in
  let* ds := Py.iter ds in
  let* dims := mapM dimension_ddl ds in
  let* ms := Py.getitem metric "measure" in
  let* ms := Py.iter ms in
  let* meas := mapM measure_ddl ms in
  let* base := Py.getitem metric "baseObject" in
  Ok (nl +:+ "/* This table is a metric */" +:+ nl +:+ "/* Metric Base Object: "
      +:+ fmt base +:+ " */" +:+ nl +:+ "CREATE TABLE " +:+ fmt table_name
      +:+ " (" +:+ nl +:+ "  " +:+ Str.join ("," +:+ nl +:+ "  ") (dims ++ meas)
      +:+ nl +:+ ");").

Definition _convert_metrics (metrics : value) : result (list string) :=
  let* ms := Py.iter metrics in
  mapM metric_table ms.

Definition run (mdl : value) : result (list Document.t) :=
  let* relationships := Py.getitem mdl "relationships" in
  let* views := Py.getitem mdl "views" in
  let* metrics := Py.getitem mdl "metrics" in
  let* ms := Py.getitem mdl "models" in
  let* ms := Py.iter ms in
  let* models := mapM semantic_model ms in
  let* tables := _convert_models_and_relationships models relationships in
  let* metric_tables := _convert_metrics metrics in
  let* view_ddls := _convert_views views in
  Ok (documents (tables ++ metric_tables ++ view_ddls)).

End WithRuntime.
End DDLConverter.

(** ** [MDLValidator] *)

Module MDLValidator.
Section WithRuntime.
Context `{RT : Runtime}.

(** [if k not in mdl_json: mdl_json[k] = []] *)
Definition default_key (k : string) (mdl_json : value) : result value :=
  let* p := Py.has_key k mdl_json in
  if p : bool then Ok mdl_json else Py.setitem mdl_json k (VList []).

Definition run (mdl : string) : result value :=
  match orjson_loads mdl with
  | JSONDecodeError e => Err (ValueError ("Invalid JSON: " +:+ e))
  | Loaded mdl_json =>
      let* mdl_json := default_key "models" mdl_json in
      let* mdl_json := default_key "views" mdl_json in
      let* mdl_json := default_key "relationships" mdl_json in
      let* mdl_json := default_key "metrics" mdl_json in
      Ok mdl_json
  end.

End WithRuntime.
End MDLValidator.

(** ** [ViewConverter] *)

Module ViewConverter.
Section WithRuntime.
Context `{RT : Runtime}.

(** [view["properties"][k] if "properties" in view and k in view["properties"]
     else ""] *)
Definition property (view : value) (k : string) : result value :=
  let* present :=
    and_then (Py.has_key "properties" view)
             (let* p := Py.getitem view "properties" in Py.has_key k p) in
  if present : bool then
    let* p := Py.getitem view "properties" in
    Py.getitem p k
  else Ok (VStr "").

Definition _format (view : value) : result string :=
  let* question := property view "question" in
  let* description := property view "description" in
  let* statement := Py.getitem view "statement" in
  Ok (py_str (VDict [("question", question); ("description", description);
                    ("statement", statement)])).

Definition run (mdl : value) : result (list Document.t) :=
  let* views := Py.getitem mdl "views" in
  let* converted_views :=
    if Py.truthy views then
      let* vs := Py.iter views in
      mapM _format vs
    else Ok [] in
  Ok (documents converted_views).

End WithRuntime.
End ViewConverter.

(** ** Document stores, [DocumentCleaner] and the [Indexing] pipeline *)

(** A document store holds documents by id. *)
Abbreviation store := (gmap string Document.t).

Module DocumentStore.

Definition count_documents (s : store) : nat := size s.

(** Ids that are not in the store are passed over. *)
Definition delete_documents (ids : list string) (s : store) : store :=
  foldr delete s ids.

(** [write_documents(docs, policy=DuplicatePolicy.OVERWRITE)] *)
Definition write_documents (docs : list Document.t) (s : store) : store :=
  foldl (fun s d => <[Document.id d := d]> s) s docs.

End DocumentStore.

Module DocumentCleaner.

Definition _clear_documents (s : store) : store :=
  let ids := map str (seq 0 (DocumentStore.count_documents s)) in
  match ids with
  | [] => s
  | _ => DocumentStore.delete_documents ids s
  end.

(** [run] clears every store it was built with and hands the text on. *)
Definition run (stores : list store) (mdl : string) : list store * string :=
  (map _clear_documents stores, mdl).

End DocumentCleaner.

Module Indexing.
Section WithRuntime.
Context `{RT : Runtime}.

(** The two stores of [Indexing.__init__], which the cleaner and the writers
    share; the cleaner's list is [[ddl_store; view_store]]. *)
Record state : Type := mk { ddl_store : store; view_store : store }.

(** One branch after the validator: converter, embedder, writer. *)
Definition branch (convert : value -> result (list Document.t)) (mdl : value)
  (s : store) : store * result nat :=
  match (let* docs := convert mdl in embedder docs) with
  | Ok docs => (DocumentStore.write_documents docs s, Ok (length docs))
  | Err e => (s, Err e)
  end.

(** [Indexing.run]: the text enters at the cleaner, whose output is the
    validator's input ([pipe.connect("cleaner", "validator")]); the validated
    MDL feeds the DDL branch and the view branch.  An exception in a
    component ends the run; what was done to the stores before stays done. *)
Definition run (st : state) (mdl_str : string) : state * result (nat * nat) :=
  let (stores, mdl) := DocumentCleaner.run [ddl_store st; view_store st] mdl_str in
  let ddl := nth 0 stores (ddl_store st) in
  let view := nth 1 stores (view_store st) in
  match MDLValidator.run mdl with
  | Err e => (mk ddl view, Err e)
  | Ok mdl_json =>
      match branch DDLConverter.run mdl_json ddl with
      | (ddl, Err e) => (mk ddl view, Err e)
      | (ddl, Ok n) =>
          match branch ViewConverter.run mdl_json view with
          | (view, Err e) => (mk ddl view, Err e)
          | (view, Ok m) => (mk ddl view, Ok (n, m))
          end
      end
  end.

End WithRuntime.
End Indexing.

(** ** The semantics-description pipeline *)

Module SemanticsDescription.
Section WithRuntime.
Context `{RT : Runtime}.

(** [{"description": p.get("description", ""), "alias": p.get("displayName", "")}] *)
Definition description_and_alias (p : value) : result value :=
  let* description := Py.get p "description" (VStr "") in
  let* alias := Py.get p "displayName" (VStr "") in
  Ok (VDict [("description", description); ("alias", alias)]).

Definition relation_filter (column : value) : result bool :=
  let* r := Py.has_key "relationship" column in
  Ok (negb r).

Definition column_formatter (columns : value) : result (list value) :=
  let* cs := Py.iter columns in
  comprehension relation_filter
    (fun column =>
       let* name := Py.getitem column "name" in
       let* type := Py.getitem column "type" in
       let* p := Py.getitem column "properties" in
       let* properties := description_and_alias p in
       Ok (VDict [("name", name); ("type", type); ("properties", properties)]))
    cs.

Definition extract (model : value) : result value :=
  let* name := Py.getitem model "name" in
  let* cs := Py.getitem model "columns" in
  let* columns := column_formatter cs in
  let* p := Py.getitem model "properties" in
  let* properties := description_and_alias p in
  Ok (VDict [("name", name); ("columns", VList columns); ("properties", properties)]).

(** [name in selected_models], for the [list[str]] the caller passes. *)
Definition selected (selected_models : list string) (name : value) : bool :=
  existsb (fun s => Py.equal (VStr s) name) selected_models.

Definition picked_models (mdl : value) (selected_models : list string)
  : result (list value) :=
  let* ms := Py.get mdl "models" (VList []) in
  let* ms := Py.iter ms in
  comprehension
    (fun model =>
       let* name := Py.get model "name" (VStr "") in
       Ok (selected selected_models name))
    extract ms.

(** The inner function of [normalize]: the reply as a dict, or
    [{"models": []}] when it is not JSON. *)
Definition wrapper (text : value) : result value :=
  match text with
  | VStr text =>
      let text := Str.replace_newlines text in
      let text := Str.join " " (Str.words text) in
      match orjson_loads (Str.strip text) with
      | Loaded text_dict => Ok text_dict
      | JSONDecodeError _ => Ok (VDict [("models", VList [])])
      end
  | _ => Err AttributeError
  end.

(** [{model["name"]: model for model in models}] *)
Definition by_name (models : list value) : result Py.pydict :=
  foldM (fun d model =>
           let* name := Py.getitem model "name" in
           Py.pydict_set name model d) models [].

Definition normalize (generate : value) : result Py.pydict :=
  let* replies := Py.get generate "replies" VNone in
  let* reply := Py.getindex replies 0 in
  let* normalized := wrapper reply in
  let* models := Py.getitem normalized "models" in
  let* ms := Py.iter models in
  by_name ms.

(** The inner function of [output]: the enriched columns whose name is the
    name of one of [columns]. *)
Definition _filter (enriched columns : value) : result (list value) :=
  let* cs := Py.iter columns in
  let* valid_columns := mapM (fun col => Py.getitem col "name") cs in
  let* es := Py.iter enriched in
  comprehension
    (fun col =>
       let* name := Py.getitem col "name" in
       Ok (existsb (fun v => Py.equal v name) valid_columns))
    (fun col => Ok col) es.

Definition output (normalize : Py.pydict) (picked_models : list value)
  : result Py.pydict :=
  let* models := by_name picked_models in
  foldM (fun out item =>
           let name := fst item in
           let data := snd item in
           let* keep := Py.pydict_contains name models in
           if keep : bool then
             let* d := Py.mapping data in
             let* enriched := Py.getitem data "columns" in
             let* model := Py.pydict_getitem models name in
             let* columns := Py.getitem model "columns" in
             let* filtered := _filter enriched columns in
             Py.pydict_set name (VDict (Py.dict_set "columns" (VList filtered) d)) out
           else Ok out) normalize [].

End WithRuntime.
End SemanticsDescription.

(** ** A runtime to run the code with

    A small JSON reader, the compact JSON writer and Python's [repr], for
    evaluating the definitions above on concrete inputs.  The reader covers
    JSON without fractions, exponents and [\u] escapes (texts that use them
    are reported as not decodable); the theorems do not depend on it. *)

Module Sample.

Definition dquote : ascii := "034"%char.
Definition backslash : ascii := "092"%char.

Definition is_ws (c : ascii) : bool :=
  let n := nat_of_ascii c in
  (n =? 32)%nat || (n =? 9)%nat || (n =? 10)%nat || (n =? 13)%nat.

Fixpoint skip_ws (s : string) : string :=
  match s with
  | String c r => if is_ws c then skip_ws r else s
  | EmptyString => EmptyString
  end.

Definition digit (c : ascii) : option Z :=
  let n := nat_of_ascii c in
  if (48 <=? n)%nat && (n <=? 57)%nat then Some (Z.of_nat (n - 48)) else None.

Fixpoint read_digits (s : string) (acc : Z) : Z * string :=
  match s with
  | String c r =>
      match digit c with
      | Some d => read_digits r (10 * acc + d)%Z
      | None => (acc, s)
      end
  | EmptyString => (acc, s)
  end.

(** An integer literal: digits, with no leading zero before another digit. *)
Definition read_nat (s : string) : option (Z * string) :=
  match s with
  | String c r =>
      match digit c with
      | Some d =>
          match r with
          | String c' _ =>
              if (d =? 0)%Z && bool_decide (is_Some (digit c')) then None
              else Some (read_digits s 0)
          | EmptyString => Some (read_digits s 0)
          end
      | None => None
      end
  | EmptyString => None
  end.

Definition unescape (c : ascii) : option ascii :=
  let n := nat_of_ascii c in
  if (n =? 34)%nat || (n =? 92)%nat || (n =? 47)%nat then Some c
  else if (n =? 110)%nat then Some LF
  else if (n =? 116)%nat then Some "009"%char
  else if (n =? 114)%nat then Some "013"%char
  else if (n =? 98)%nat then Some "008"%char
  else if (n =? 102)%nat then Some "012"%char
  else None.

(** The rest of a string literal, after its opening quote. *)
Fixpoint read_chars (s : string) (acc : string) : option (string * string) :=
  match s with
  | EmptyString => None
  | String c r =>
      if Ascii.eqb c dquote then Some (acc, r)
      else if Ascii.eqb c backslash then
        match r with
        | String e r' =>
            match unescape e with
            | Some x => read_chars r' (acc +:+ String x "")
            | None => None
            end
        | EmptyString => None
        end
      else if (nat_of_ascii c <? 32)%nat then None
      else read_chars r (acc +:+ String c "")
  end.

Definition expect (word : string) (v : value) (s : string) : option (value * string) :=
  if Str.prefix word s
  then Some (v, String.substring (String.length word) (String.length s) s)
  else None.

Fixpoint read_value (fuel : nat) (s : string) : option (value * string) :=
  match fuel with
  | O => None
  | S fuel =>
      match skip_ws s with
      | EmptyString => None
      | String c r as t =>
          if Ascii.eqb c dquote then
            match read_chars r "" with
            | Some (x, r) => Some (VStr x, r)
            | None => None
            end
          else if Ascii.eqb c "[" then
            match skip_ws r with
            | String "]" r' => Some (VList [], r')
            | _ => read_elements fuel r []
            end
          else if Ascii.eqb c "{" then
            match skip_ws r with
            | String "}" r' => Some (VDict [], r')
            | _ => read_members fuel r []
            end
          else if Ascii.eqb c "-" then
            match read_nat r with
            | Some (n, r) => Some (VInt (- n), r)
            | None => None
            end
          else if Ascii.eqb c "n" then expect "null" VNone t
          else if Ascii.eqb c "t" then expect "true" (VBool true) t
          else if Ascii.eqb c "f" then expect "false" (VBool false) t
          else
            match read_nat t with
            | Some (n, r) => Some (VInt n, r)
            | None => None
            end
      end
  end
with read_elements (fuel : nat) (s : string) (acc : list value)
  : option (value * string) :=
  match fuel with
  | O => None
  | S fuel =>
      match read_value fuel s with
      | Some (v, r) =>
          match skip_ws r with
          | String "," r' => read_elements fuel r' (acc ++ [v])
          | String "]" r' => Some (VList (acc ++ [v]), r')
          | _ => None
          end
      | None => None
      end
  end
with read_members (fuel : nat) (s : string) (acc : list (string * value))
  : option (value * string) :=
  match fuel with
  | O => None
  | S fuel =>
      match skip_ws s with
      | String c r =>
          if Ascii.eqb c dquote then
            match read_chars r "" with
            | Some (k, r) =>
                match skip_ws r with
                | String ":" r =>
                    match read_value fuel r with
                    | Some (v, r) =>
                        match skip_ws r with
                        | String "," r' => read_members fuel r' (Py.dict_set k v acc)
                        | String "}" r' => Some (VDict (Py.dict_set k v acc), r')
                        | _ => None
                        end
                    | None => None
                    end
                | _ => None
                end
            | None => None
            end
          else None
      | EmptyString => None
      end
  end.

(** A repeated key keeps its first place and takes the last value, as in a
    Python dict. *)
Definition loads (s : string) : loaded :=
  match read_value (S (String.length s)) s with
  | Some (v, r) =>
      match skip_ws r with
      | EmptyString => Loaded v
      | _ => JSONDecodeError "trailing characters"
      end
  | None => JSONDecodeError "unexpected character"
  end.

Definition hex_digit (n : nat) : ascii :=
  if (n <? 10)%nat then ascii_of_nat (48 + n) else ascii_of_nat (87 + n).

Definition hex2 (c : ascii) : string :=
  let n := nat_of_ascii c in
  String (hex_digit (n / 16)) (String (hex_digit (n mod 16)) "").

Fixpoint json_escape (s : string) : string :=
  match s with
  | EmptyString => EmptyString
  | String c r =>
      let n := nat_of_ascii c in
      (if (n =? 34)%nat then String backslash (String dquote "")
       else if (n =? 92)%nat then String backslash (String backslash "")
       else if (n =? 10)%nat then String backslash "n"
       else if (n =? 13)%nat then String backslash "r"
       else if (n =? 9)%nat then String backslash "t"
       else if (n =? 8)%nat then String backslash "b"
       else if (n =? 12)%nat then String backslash "f"
       else if (n <? 32)%nat then String backslash "u00" +:+ hex2 c
       else String c "") +:+ json_escape r
  end.

Definition json_string (s : string) : string :=
  String dquote (json_escape s) +:+ String dquote "".

(** [orjson.dumps]: no blanks between tokens. *)
Fixpoint dumps (v : value) : string :=
  match v with
  | VNone => "null"
  | VBool b => if b then "true" else "false"
  | VInt n => pretty n
  | VStr s => json_string s
  | VList l => "[" +:+ Str.join "," (map dumps l) +:+ "]"
  | VDict d =>
      "{" +:+ Str.join "," (map (fun kv => json_string (fst kv) +:+ ":" +:+ dumps (snd kv)) d)
      +:+ "}"
  end.

Definition quote : ascii := "039"%char.

Definition printable (n : nat) : bool :=
  ((32 <=? n)%nat && (n <? 127)%nat) || ((161 <=? n)%nat && negb (n =? 173)%nat).

Fixpoint repr_escape (q : ascii) (s : string) : string :=
  match s with
  | EmptyString => EmptyString
  | String c r =>
      let n := nat_of_ascii c in
      (if Ascii.eqb c q || (n =? 92)%nat then String backslash (String c "")
       else if (n =? 10)%nat then String backslash "n"
       else if (n =? 13)%nat then String backslash "r"
       else if (n =? 9)%nat then String backslash "t"
       else if printable n then String c ""
       else String backslash "x" +:+ hex2 c) +:+ repr_escape q r
  end.

(** [repr] of a [str]: single quotes, unless the text has a single quote and
    no double quote. *)
Definition repr_str (s : string) : string :=
  let q :=
    if Str.contains (String quote "") s && negb (Str.contains (String dquote "") s)
    then dquote else quote in
  String q (repr_escape q s) +:+ String q "".

Fixpoint repr (v : value) : string :=
  match v with
  | VNone => "None"
  | VBool b => if b then "True" else "False"
  | VInt n => pretty n
  | VStr s => repr_str s
  | VList l => "[" +:+ Str.join ", " (map repr l) +:+ "]"
  | VDict d =>
      "{" +:+ Str.join ", " (map (fun kv => repr_str (fst kv) +:+ ": " +:+ repr (snd kv)) d)
      +:+ "}"
  end.

Definition to_str (v : value) : string :=
  match v with
  | VStr s => s
  | _ => repr v
  end.

#[export] Instance runtime : Runtime :=
  {| orjson_loads := loads; orjson_dumps := dumps; py_str := to_str; embedder := Ok |}.

End Sample.

(** ** Definitions used to state the properties *)

(** The four top-level sections of an MDL. *)
Definition sections : list string := ["models"; "views"; "relationships"; "metrics"].

(** [d] with the key [k] defaulted to the empty list. *)
Definition ensure (k : string) (d : list (string * value)) : list (string * value) :=
  match Py.dict_lookup k d with
  | Some _ => d
  | None => Py.dict_set k (VList []) d
  end.

(** The separator between the lines of a CREATE TABLE body. *)
Definition line_sep : string := "," +:+ nl +:+ "  ".

(** The elements of [mdl[k]], as a [for] loop over it sees them. *)
Definition items (mdl : value) (k : string) : result (list value) :=
  let* v := Py.getitem mdl k in
  Py.iter v.

(** The MDL of the end-to-end scenario: one model, nothing else. *)
Definition customers_model : value :=
  VDict [("name", VStr "customers"); ("primaryKey", VStr "id");
         ("columns", VList [VDict [("name", VStr "id"); ("type", VStr "int")]])].

Definition customers_mdl : value :=
  VDict [("models", VList [customers_model]); ("relationships", VList []);
         ("metrics", VList []); ("views", VList [])].

(** [c in s] for one character. *)
Fixpoint has_char (c : ascii) (s : string) : bool :=
  match s with
  | EmptyString => false
  | String c' s' => Ascii.eqb c' c || has_char c s'
  end.

(** A table or column name as a join condition writes it: no dot and no
    blank inside. *)
Definition is_name (s : string) : bool :=
  negb (has_char "." s) && negb (has_char " " s).

(** The join condition [t1.c1 = t2.c2]. *)
Definition join_condition (t1 c1 t2 c2 : string) : string :=
  t1 +:+ "." +:+ c1 +:+ " = " +:+ t2 +:+ "." +:+ c2.

(** The rendered constraint line. *)
Definition fk_line `{Runtime} (column table : string) (pk : value) : string :=
  "FOREIGN KEY (" +:+ column +:+ ") REFERENCES " +:+ table +:+ "(" +:+ fmt pk +:+ ")".

(** [d] is the CREATE TABLE block of [table], and one of the constraint lines
    that follow its column lines is
    [FOREIGN KEY (column) REFERENCES related(pk)], where [pk] is the primary
    key that the model named [related] declares (the last one, should
    several models bear the name). *)
Definition table_references `{Runtime} (models : list value) (d : Document.t)
  (table column related : string) : Prop :=
  exists (properties : value) (columns_ddl fks : list string) (j : nat)
         (model pk : value),
    Document.content d
    = nl +:+ "/* " +:+ orjson_dumps properties +:+ " */" +:+ nl
      +:+ "CREATE TABLE " +:+ table +:+ " (" +:+ nl +:+ "  "
      +:+ Str.join line_sep (columns_ddl ++ fks) +:+ nl +:+ ");"
    /\ fk_line column related pk ∈ fks
    /\ models !! j = Some model
    /\ Py.getitem model "name" = Ok (VStr related)
    /\ Py.getitem model "primaryKey" = Ok pk
    /\ forall j' model', j < j' -> models !! j' = Some model' ->
         Py.getitem model' "name" <> Ok (VStr related).

(** An MDL with two models, a MANY_TO_ONE relationship, a metric and a
    view. *)
Definition orders_customers : value :=
  VDict [("name", VStr "orders_customers");
         ("models", VList [VStr "orders"; VStr "customers"]);
         ("joinType", VStr "MANY_TO_ONE");
         ("condition", VStr "orders.customer_id = customers.id")].

Definition orders_model : value :=
  VDict [("name", VStr "orders"); ("primaryKey", VStr "order_id");
         ("properties", VDict [("description", VStr "placed orders")]);
         ("columns",
          VList [VDict [("name", VStr "order_id"); ("type", VStr "int")];
                 VDict [("name", VStr "customer_id"); ("type", VStr "int")];
                 VDict [("name", VStr "customer"); ("type", VStr "customers");
                        ("relationship", VStr "orders_customers")]])].

Definition revenue_metric : value :=
  VDict [("name", VStr "revenue"); ("baseObject", VStr "orders");
         ("dimension", VList [VDict [("name", VStr "day"); ("type", VStr "date")]]);
         ("measure", VList [VDict [("name", VStr "total"); ("type", VStr "int");
                                   ("expression", VStr "sum(amount)")]])].

Definition top_view : value :=
  VDict [("name", VStr "top_customers");
         ("statement", VStr "select * from customers");
         ("properties", VDict [("question", VStr "who buys most")])].

Definition shop_mdl : value :=
  VDict [("models", VList [orders_model; customers_model]);
         ("relationships", VList [orders_customers]);
         ("metrics", VList [revenue_metric]);
         ("views", VList [top_view])].

(** An MDL with the ONE_TO_ONE relationship of the symmetry scenario. *)
Definition a_b : value :=
  VDict [("models", VList [VStr "a"; VStr "b"]); ("joinType", VStr "ONE_TO_ONE");
         ("condition", VStr "a.x = b.y")].

Definition pair_mdl : value :=
  VDict [("models",
          VList [VDict [("name", VStr "a"); ("primaryKey", VStr "x");
                        ("columns", VList [VDict [("name", VStr "x"); ("type", VStr "int")]])];
                 VDict [("name", VStr "b"); ("primaryKey", VStr "y");
                        ("columns", VList [VDict [("name", VStr "y"); ("type", VStr "int")]])]]);
         ("relationships", VList [a_b]); ("metrics", VList []); ("views", VList [])].

(** [applies r A k B]: the relationship [r] gives the table named [A] a
    foreign key, read from side [k] of the condition and pointing at the
    table named [B].  These are the three branches of the loop body. *)
Inductive applies (r : value) : string -> nat -> string -> Prop :=
| applies_many_to_one (A B jt : string) :
    Py.getitem r "models" = Ok (VList [VStr A; VStr B]) ->
    Py.getitem r "joinType" = Ok (VStr jt) ->
    Str.upper jt = "MANY_TO_ONE" ->
    applies r A 0 B
| applies_one_to_many (A B jt : string) :
    Py.getitem r "models" = Ok (VList [VStr A; VStr B]) ->
    Py.getitem r "joinType" = Ok (VStr jt) ->
    Str.upper jt = "ONE_TO_MANY" ->
    applies r B 1 A
| applies_one_to_one_first (A B jt : string) :
    A <> B ->
    Py.getitem r "models" = Ok (VList [VStr A; VStr B]) ->
    Py.getitem r "joinType" = Ok (VStr jt) ->
    Str.upper jt = "ONE_TO_ONE" ->
    applies r A 0 B
| applies_one_to_one_second (A B jt : string) :
    A <> B ->
    Py.getitem r "models" = Ok (VList [VStr A; VStr B]) ->
    Py.getitem r "joinType" = Ok (VStr jt) ->
    Str.upper jt = "ONE_TO_ONE" ->
    applies r B 1 A.

(** The MDL of [shop_mdl] with a condition that has a left side only. *)
Definition one_sided : value :=
  VDict [("models", VList [VStr "orders"; VStr "customers"]);
         ("joinType", VStr "MANY_TO_ONE");
         ("condition", VStr "orders.customer_id")].

Definition one_sided_mdl : value :=
  VDict [("models", VList [orders_model; customers_model]);
         ("relationships", VList [one_sided]);
         ("metrics", VList []); ("views", VList [])].

(** An MDL whose relationship points at a model that is not there. *)
Definition orphan_mdl : value :=
  VDict [("models", VList [orders_model]);
         ("relationships", VList [orders_customers]);
         ("metrics", VList []); ("views", VList [])].

(** [properties.k ?? ""] in the words of the view projector's description:
    the value under [k] in the view's properties, the empty string when the
    view has no properties or they have no [k]. *)
Definition view_property (view : value) (k : string) : value :=
  match view with
  | VDict v =>
      match Py.dict_lookup "properties" v with
      | Some (VDict p) => default (VStr "") (Py.dict_lookup k p)
      | _ => VStr ""
      end
  | _ => VStr ""
  end.

(** The record the view projector emits for a view. *)
Definition view_record (view statement : value) : value :=
  VDict [("question", view_property view "question");
         ("description", view_property view "description");
         ("statement", statement)].

(** The ids the cleaner deletes from a store: ["0"] to [str (count - 1)]. *)
Definition cleared_ids (s : store) : list string :=
  map str (seq 0 (DocumentStore.count_documents s)).

(** A store holding one document, under the id "0". *)
Definition old_document : Document.t :=
  Document.mk "0" [("id", "0")] "CREATE TABLE old (n int);".

Definition used_stores : Indexing.state :=
  Indexing.mk {["0" := old_document]} ∅.

(** The models [picked_models] iterates over: [mdl.get("models", [])]. *)
Definition mdl_models (mdl : value) : result (list value) :=
  let* ms := Py.get mdl "models" (VList []) in
  Py.iter ms.

(** A reply of the generator that invents a model and a column. *)
Definition inventive_reply : Py.pydict :=
  [(VStr "customers",
    VDict [("name", VStr "customers");
           ("columns",
            VList [VDict [("name", VStr "id");
                          ("properties", VDict [("description", VStr "the key")])];
                   VDict [("name", VStr "ghost");
                          ("properties", VDict [("description", VStr "invented")])]]);
           ("properties", VDict [("description", VStr "buyers")])]);
   (VStr "phantoms",
    VDict [("name", VStr "phantoms"); ("columns", VList []);
           ("properties", VDict [("description", VStr "invented")])])].

(** An MDL in the shape the semantics-description pipeline reads: every
    model and column carries "properties". *)
Definition described_mdl : value :=
  VDict [("models",
          VList [VDict [("name", VStr "customers");
                        ("properties", VDict []);
                        ("columns",
                         VList [VDict [("name", VStr "id"); ("type", VStr "int");
                                       ("properties", VDict [])];
                                VDict [("name", VStr "orders"); ("type", VStr "orders");
                                       ("relationship", VStr "orders_customers");
                                       ("properties", VDict [])]])];
                 VDict [("name", VStr "orders");
                        ("properties", VDict []);
                        ("columns", VList [])]])].

(** A reply that is not JSON, over two lines. *)
Definition broken_reply : string := "oops," +:+ nl +:+ " not   json".

(** An MDL whose relationship is declared from the "one" side. *)
Definition customers_orders : value :=
  VDict [("models", VList [VStr "customers"; VStr "orders"]);
         ("joinType", VStr "one_to_many");
         ("condition", VStr "customers.id = orders.customer_id")].

Definition ledger_mdl : value :=
  VDict [("models", VList [customers_model; orders_model]);
         ("relationships", VList [customers_orders]);
         ("metrics", VList []); ("views", VList [])].

(** A relationship with a join type the converter does not know, and
    neither "joinType" nor "condition" at all. *)
Definition many_to_many : value :=
  VDict [("models", VList [VStr "orders"; VStr "customers"]);
         ("joinType", VStr "MANY_TO_MANY")].

Definition bare_pair : value :=
  VDict [("models", VList [VStr "orders"; VStr "customers"])].

(** A condition written without blanks around the equals sign. *)
Definition unspaced : value :=
  VDict [("condition", VStr "orders.customer_id=customers.id")].

(** A calculated column that carries no expression, and a model without a
    primary key. *)
Definition total_column : value :=
  VDict [("name", VStr "total"); ("type", VStr "int"); ("isCalculated", VBool true)].

Definition keyless_model : value :=
  VDict [("name", VStr "events");
         ("columns", VList [VDict [("name", VStr "at"); ("type", VStr "date")]])].

Definition keyless_mdl : value :=
  VDict [("models", VList [customers_model; keyless_model]);
         ("relationships", VInt 7); ("metrics", VNone); ("views", VNone)].

(** ["relationship" not in column], for a column on which the test does not
    raise. *)
Definition plain_column (column : value) : bool :=
  match Py.has_key "relationship" column with
  | Ok false => true
  | _ => false
  end.

(** The columns of [orders_model]. *)
Definition orders_columns : list value :=
  [VDict [("name", VStr "order_id"); ("type", VStr "int")];
   VDict [("name", VStr "customer_id"); ("type", VStr "int")];
   VDict [("name", VStr "customer"); ("type", VStr "customers");
          ("relationship", VStr "orders_customers")]].

(** The store a writer leaves when it writes the documents of [contents]
    into an empty store. *)
Definition written (contents : list string) : store :=
  DocumentStore.write_documents (documents contents) ∅.

(** An MDL text, written out by the sample writer. *)
Definition shop_text : string := Sample.dumps shop_mdl.

Definition validated_text : string :=
  Sample.dumps (VDict [("models", VList []); ("views", VList []);
                       ("relationships", VList []); ("metrics", VList [])]).

(** An MDL whose "views" is [null], and one with a view that has no
    statement. *)
Definition null_views_mdl : value :=
  VDict [("models", VList []); ("relationships", VList []);
         ("metrics", VList []); ("views", VNone)].

Definition unstated_views_mdl : value :=
  VDict [("views", VList [top_view; VDict [("name", VStr "draft")]])].

(** The line of a dimension and of a measure in a metric's table. *)
Definition dimension_line `{Runtime} (name type : value) : string :=
  "-- This column is a dimension" +:+ nl +:+ "  " +:+ fmt name +:+ " " +:+ fmt type.

Definition measure_line `{Runtime} (name type expression : value) : string :=
  "-- This column is a measure" +:+ nl +:+ "  -- expression: " +:+ fmt expression
  +:+ nl +:+ "  " +:+ fmt name +:+ " " +:+ fmt type.

(** [model.get("name", "") in selected_models], for a model on which the
    test does not raise. *)
Definition chosen (selected_models : list string) (model : value) : bool :=
  match Py.get model "name" (VStr "") with
  | Ok name => SemanticsDescription.selected selected_models name
  | Err _ => false
  end.

(** An MDL whose second model is not selected and has neither columns nor
    properties. *)
Definition ragged_mdl : value :=
  VDict [("models",
          VList [VDict [("name", VStr "customers"); ("properties", VDict []);
                        ("columns", VList [])];
                 VDict [("name", VStr "scratch")]])].

(** A reply of the generator that describes the same model twice. *)
Definition twice_text : string :=
  Sample.dumps
    (VDict [("models",
             VList [VDict [("name", VStr "customers"); ("columns", VList []);
                           ("properties", VDict [("description", VStr "first")])];
                    VDict [("name", VStr "customers"); ("columns", VList []);
                           ("properties", VDict [("description", VStr "second")])]])]).

(** * Properties *)

(** ** The result monad and the loops *)

Lemma bind_Ok {A B : Type} (m : result A) (k : A -> result B) (b : B) :
  bind m k = Ok b <-> exists a, m = Ok a /\ k a = Ok b.
Proof.
  split.
  - destruct m as [a|e]; simpl; [eauto | discriminate].
  - intros (a & -> & Hk). exact Hk.
Qed.

(** Splits a hypothesis [let* x := m in k = Ok b] into [m = Ok x] and
    [k x = Ok b]. *)
Ltac inv_bind H :=
  let x := fresh "x" in
  let Hx := fresh "Hx" in
  apply bind_Ok in H; destruct H as (x & Hx & H).

Tactic Notation "bind_inv" hyp(H) "as" ident(x) ident(Hx) :=
  apply bind_Ok in H; destruct H as (x & Hx & H).

Lemma mapM_Forall2 {A B : Type} (f : A -> result B) (l : list A) (ys : list B) :
  mapM f l = Ok ys <-> Forall2 (fun x y => f x = Ok y) l ys.
Proof.
  revert ys. induction l as [|x l IH]; intros ys; simpl.
  - split.
    + intros [= <-]. constructor.
    + intros H. inversion H. reflexivity.
  - split.
    + intros H. inv_bind H. inv_bind H. injection H as <-.
      constructor; [assumption | by apply IH].
    + intros H. inversion H as [|? y ? ys' Hy Hys]; subst.
      rewrite Hy. simpl. apply IH in Hys. rewrite Hys. reflexivity.
Qed.

Lemma mapM_length {A B : Type} (f : A -> result B) (l : list A) (ys : list B) :
  mapM f l = Ok ys -> length ys = length l.
Proof. intros H. apply mapM_Forall2 in H. symmetry. by eapply Forall2_length. Qed.

Lemma mapM_lookup {A B : Type} (f : A -> result B) (l : list A) (ys : list B)
  (i : nat) (x : A) :
  mapM f l = Ok ys -> l !! i = Some x -> exists y, ys !! i = Some y /\ f x = Ok y.
Proof.
  intros H Hi. apply mapM_Forall2 in H.
  destruct (Forall2_lookup_l _ _ _ _ _ H Hi) as (y & Hy & Hf). eauto.
Qed.

Lemma comprehension_sound {A B : Type} (cond : A -> result bool) (f : A -> result B)
  (l : list A) (ys : list B) (y : B) :
  comprehension cond f l = Ok ys -> y ∈ ys ->
  exists x, x ∈ l /\ cond x = Ok true /\ f x = Ok y.
Proof.
  revert ys. induction l as [|x l IH]; intros ys; simpl.
  - intros [= <-] Hy. by apply elem_of_nil in Hy.
  - intros H Hy. inv_bind H. destruct x0.
    + inv_bind H. inv_bind H. injection H as <-.
      apply elem_of_cons in Hy as [->|Hy].
      * exists x. split; [left | done].
      * destruct (IH _ Hx1 Hy) as (x' & ? & ? & ?). exists x'. split; [by right | done].
    + destruct (IH _ H Hy) as (x' & ? & ? & ?). exists x'. split; [by right | done].
Qed.

(** An invariant of a [for] loop holds of its result. *)
Lemma foldM_invariant {A S : Type} (Inv : S -> Prop) (body : S -> A -> result S)
  (l : list A) (s s' : S) :
  (forall s x s', x ∈ l -> Inv s -> body s x = Ok s' -> Inv s') ->
  Inv s -> foldM body l s = Ok s' -> Inv s'.
Proof.
  revert s. induction l as [|x l IH]; intros s Hstep Hs H; cbn [foldM] in H.
  - by injection H as <-.
  - bind_inv H as s1 H1. apply (IH s1); [|by eapply Hstep; [left|..]|done].
    intros ? ? ? Hin. apply Hstep. by right.
Qed.

Lemma existsb_elem_of {A : Type} (f : A -> bool) (l : list A) :
  existsb f l = true -> exists x, x ∈ l /\ f x = true.
Proof.
  intros H. apply existsb_exists in H as (x & Hin & Hx).
  exists x. split; [by apply list_elem_of_In | done].
Qed.

Lemma elem_of_concat {A : Type} (x : A) (l : list A) (ls : list (list A)) :
  x ∈ l -> l ∈ ls -> x ∈ concat ls.
Proof.
  intros Hx Hl. apply list_elem_of_In, in_concat. exists l.
  split; by apply list_elem_of_In.
Qed.

(** ** Values and dicts *)

Lemma dict_lookup_set (k k' : string) (v : value) (d : list (string * value)) :
  Py.dict_lookup k (Py.dict_set k' v d)
  = if String.eqb k k' then Some v else Py.dict_lookup k d.
Proof.
  induction d as [|[k0 v0] d IH]; simpl.
  - reflexivity.
  - destruct (String.eqb k' k0) eqn:E0; simpl.
    + apply String.eqb_eq in E0 as <-. by destruct (String.eqb k k').
    + destruct (String.eqb k k0) eqn:E1.
      * apply String.eqb_eq in E1 as ->.
        rewrite String.eqb_sym in E0. by rewrite E0.
      * exact IH.
Qed.

Lemma getitem_get (v : value) (k : string) (x default : value) :
  Py.getitem v k = Ok x -> Py.get v k default = Ok x.
Proof.
  destruct v; try discriminate. simpl.
  destruct (Py.dict_lookup k l); [by intros [= ->] | discriminate].
Qed.

Lemma equal_str_r (x : value) (s : string) :
  Py.equal x (VStr s) = true <-> x = VStr s.
Proof.
  destruct x; simpl; try (split; [discriminate | discriminate]).
  rewrite String.eqb_eq. split; [by intros -> | by intros [= ->]].
Qed.

Lemma equal_str_l (s : string) (x : value) :
  Py.equal (VStr s) x = true <-> x = VStr s.
Proof.
  destruct x; simpl; try (split; discriminate).
  rewrite String.eqb_eq. split; [by intros -> | by intros [= ->]].
Qed.

Lemma equal_str_refl (s : string) : Py.equal (VStr s) (VStr s) = true.
Proof. by apply equal_str_r. Qed.

Lemma equal_str_ne (a b : string) : a <> b -> Py.equal (VStr a) (VStr b) = false.
Proof. intros H. simpl. by apply String.eqb_neq. Qed.

Lemma pydict_lookup_insert_str (B : string) (n v : value) (d : Py.pydict) :
  Py.pydict_lookup (VStr B) (Py.pydict_insert n v d)
  = if Py.equal n (VStr B) then Some v else Py.pydict_lookup (VStr B) d.
Proof.
  induction d as [|[k' v'] d IH]; [done|].
  cbn [Py.pydict_insert Py.pydict_lookup].
  destruct (Py.equal k' n) eqn:Ekn; cbn [Py.pydict_lookup].
  - destruct (Py.equal n (VStr B)) eqn:EnB.
    + apply equal_str_r in EnB as ->. by rewrite Ekn.
    + destruct (Py.equal k' (VStr B)) eqn:EkB; [|done].
      apply equal_str_r in EkB as ->. apply equal_str_l in Ekn as ->.
      by rewrite equal_str_refl in EnB.
  - rewrite IH.
    destruct (Py.equal k' (VStr B)) eqn:EkB; [|done].
    destruct (Py.equal n (VStr B)) eqn:EnB; [|done].
    apply equal_str_r in EkB as ->. apply equal_str_r in EnB as ->.
    by rewrite equal_str_refl in Ekn.
Qed.

Lemma pydict_insert_elem (k v k' v' : value) (d : Py.pydict) :
  (k', v') ∈ Py.pydict_insert k v d ->
  (k', v') ∈ d
  \/ (v' = v /\ (k' = k \/ ((exists old, (k', old) ∈ d) /\ Py.equal k' k = true))).
Proof.
  induction d as [|[k0 v0] d IH]; cbn [Py.pydict_insert].
  - intros H. apply list_elem_of_singleton in H as [= -> ->]. right. eauto.
  - destruct (Py.equal k0 k) eqn:E; intros H;
      apply elem_of_cons in H as [[= -> ->]|H].
    + right. split; [done|]. right. split; [|done]. exists v0. by left.
    + left. by right.
    + left. by left.
    + destruct (IH H) as [Hd|(-> & [->|[(old & Hold) He]])].
      * left. by right.
      * right. eauto.
      * right. split; [done|]. right. split; [|done]. exists old. by right.
Qed.

Lemma pydict_lookup_elem (k v : value) (d : Py.pydict) :
  Py.pydict_lookup k d = Some v -> exists k', (k', v) ∈ d /\ Py.equal k' k = true.
Proof.
  induction d as [|[k0 v0] d IH]; cbn [Py.pydict_lookup]; [discriminate|].
  destruct (Py.equal k0 k) eqn:E.
  - intros [= ->]. exists k0. split; [by left | done].
  - intros H. destruct (IH H) as (k' & Hin & He). exists k'. split; [by right | done].
Qed.

Lemma documents_lookup (contents : list string) (i : nat) :
  documents contents !! i
  = (fun c => Document.mk (str i) [("id", str i)] c) <$> contents !! i.
Proof. unfold documents. by rewrite list_lookup_imap. Qed.

Lemma documents_length (contents : list string) :
  length (documents contents) = length contents.
Proof. unfold documents. apply length_imap. Qed.

(** ** Splitting strings *)

Lemma append_cons (c : ascii) (a b : string) :
  String c a +:+ b = String c (a +:+ b).
Proof. reflexivity. Qed.

Lemma append_nil_l (s : string) : "" +:+ s = s.
Proof. reflexivity. Qed.

Lemma append_nil_r (s : string) : s +:+ "" = s.
Proof.
  induction s as [|c s IH]; [done|]. by rewrite append_cons, IH.
Qed.

Lemma append_assoc (a b c : string) : (a +:+ b) +:+ c = a +:+ (b +:+ c).
Proof.
  induction a as [|x a IH]; [done|]. by rewrite !append_cons, IH.
Qed.

Lemma has_char_app (c : ascii) (a b : string) :
  has_char c (a +:+ b) = has_char c a || has_char c b.
Proof.
  induction a as [|x a IH]; [done|].
  rewrite append_cons. simpl. rewrite IH. by destruct (Ascii.eqb x c).
Qed.

Lemma prefix_app (p s : string) : Str.prefix p (p +:+ s) = true.
Proof.
  induction p as [|c p IH]; [done|].
  rewrite append_cons. simpl. by rewrite Ascii.eqb_refl.
Qed.

Lemma split_go_skip (sep x b cur : string) :
  Str.split_go sep (x +:+ b) (String.length x) cur = Str.split_go sep b 0 cur.
Proof.
  induction x as [|c x IH]; [done|]. rewrite append_cons. exact IH.
Qed.

(** A text without the separator's first character is one piece. *)
Lemma split_go_whole (c0 : ascii) (sep' a cur : string) :
  has_char c0 a = false ->
  Str.split_go (String c0 sep') a 0 cur = [cur +:+ a].
Proof.
  revert cur. induction a as [|c a IH]; intros cur.
  - intros _. by rewrite append_nil_r.
  - intros H. simpl in H. apply orb_false_iff in H as [Hc Ha].
    cbn [Str.split_go Str.prefix].
    rewrite Ascii.eqb_sym in Hc. rewrite Hc.
    rewrite (IH _ Ha), append_assoc. reflexivity.
Qed.

(** The first piece ends at the first separator, when the text before it is
    free of the separator's first character. *)
Lemma split_go_first (c0 : ascii) (sep' a b cur : string) :
  has_char c0 a = false ->
  Str.split_go (String c0 sep') (a +:+ String c0 sep' +:+ b) 0 cur
  = (cur +:+ a) :: Str.split_go (String c0 sep') b 0 "".
Proof.
  revert cur. induction a as [|c a IH]; intros cur.
  - intros _. rewrite append_nil_l, append_nil_r.
    rewrite (append_cons c0 sep' b) at 1.
    cbn [Str.split_go].
    rewrite <- (append_cons c0 sep' b), prefix_app.
    cbn [String.length]. rewrite Nat.sub_1_r. cbn [Nat.pred].
    by rewrite split_go_skip.
  - intros H. simpl in H. apply orb_false_iff in H as [Hc Ha].
    rewrite append_cons.
    cbn [Str.split_go Str.prefix].
    rewrite Ascii.eqb_sym in Hc. rewrite Hc.
    rewrite (IH _ Ha), append_assoc. reflexivity.
Qed.

Lemma split_first (c0 : ascii) (sep' a b : string) :
  has_char c0 a = false ->
  Str.split (String c0 sep') (a +:+ String c0 sep' +:+ b)
  = a :: Str.split (String c0 sep') b.
Proof. intros H. unfold Str.split. by rewrite split_go_first. Qed.

Lemma split_whole (c0 : ascii) (sep' a : string) :
  has_char c0 a = false -> Str.split (String c0 sep') a = [a].
Proof. intros H. unfold Str.split. by rewrite split_go_whole. Qed.

Lemma is_name_spec (s : string) :
  is_name s = true -> has_char "." s = false /\ has_char " " s = false.
Proof.
  unfold is_name. intros H. apply andb_true_iff in H as [H1 H2].
  by apply negb_true_iff in H1, H2.
Qed.

(** The two sides of [t1.c1 = t2.c2] and their column names. *)
Lemma split_dotted (t c : string) :
  is_name t = true -> is_name c = true -> Str.split "." (t +:+ "." +:+ c) = [t; c].
Proof.
  intros Ht Hc. apply is_name_spec in Ht as [Ht _], Hc as [Hc _].
  rewrite (split_first "." "" t c Ht), (split_whole "." "" c Hc). reflexivity.
Qed.

Lemma dotted_no_blank (t c : string) :
  is_name t = true -> is_name c = true -> has_char " " (t +:+ "." +:+ c) = false.
Proof.
  intros Ht Hc. apply is_name_spec in Ht as [_ Ht], Hc as [_ Hc].
  rewrite !has_char_app, Ht, Hc. reflexivity.
Qed.

Lemma split_condition_left (t1 c1 rhs : string) :
  is_name t1 = true -> is_name c1 = true ->
  Str.split " = " (t1 +:+ "." +:+ c1 +:+ " = " +:+ rhs)
  = (t1 +:+ "." +:+ c1) :: Str.split " = " rhs.
Proof.
  intros Ht Hc.
  rewrite <- (split_first " " "= " (t1 +:+ "." +:+ c1) rhs (dotted_no_blank _ _ Ht Hc)).
  by rewrite !append_assoc.
Qed.

Lemma split_condition (t1 c1 t2 c2 : string) :
  is_name t1 = true -> is_name c1 = true ->
  is_name t2 = true -> is_name c2 = true ->
  Str.split " = " (join_condition t1 c1 t2 c2)
  = [t1 +:+ "." +:+ c1; t2 +:+ "." +:+ c2].
Proof.
  intros H1 H2 H3 H4. unfold join_condition.
  rewrite split_condition_left by done.
  by rewrite (split_whole " " "= " _ (dotted_no_blank _ _ H3 H4)).
Qed.

(** ** C6: the validator defaults the four sections *)

Lemma default_key_dict (k : string) (d : list (string * value)) :
  MDLValidator.default_key k (VDict d) = Ok (VDict (ensure k d)).
Proof.
  unfold MDLValidator.default_key, ensure, Py.has_key, Py.contains. simpl.
  by destruct (Py.dict_lookup k d) as [v|].
Qed.

Lemma ensure_lookup (k k' : string) (d : list (string * value)) :
  Py.dict_lookup k' (ensure k d)
  = if String.eqb k' k then Some (default (VList []) (Py.dict_lookup k d))
    else Py.dict_lookup k' d.
Proof.
  unfold ensure. destruct (Py.dict_lookup k d) as [v|] eqn:E.
  - destruct (String.eqb k' k) eqn:E'; [|done].
    apply String.eqb_eq in E' as ->. by rewrite E.
  - rewrite dict_lookup_set. by destruct (String.eqb k' k).
Qed.

(** C6 (as amended): when the text parses to a JSON object [d], the validator
    returns an object [d'] in which each of "models", "views",
    "relationships" and "metrics" is present, with the value it had in [d]
    or the empty list when [d] lacked it; every other key is as in [d]; and
    the empty object yields the four empty sections, in this order. *)
Theorem validator_defaults_sections `{RT : Runtime} (mdl : string)
  (d : list (string * value)) :
  orjson_loads mdl = Loaded (VDict d) ->
  exists d',
    MDLValidator.run mdl = Ok (VDict d')
    /\ (forall k, k ∈ sections ->
          Py.dict_lookup k d' = Some (default (VList []) (Py.dict_lookup k d)))
    /\ (forall k, k ∉ sections -> Py.dict_lookup k d' = Py.dict_lookup k d)
    /\ (d = [] ->
        d' = [("models", VList []); ("views", VList []);
              ("relationships", VList []); ("metrics", VList [])]).
Proof.
  intros Hload.
  exists (ensure "metrics" (ensure "relationships" (ensure "views" (ensure "models" d)))).
  split; [|split; [|split]].
  - unfold MDLValidator.run. rewrite Hload.
    repeat (rewrite default_key_dict; cbn [bind]). reflexivity.
  - intros k Hk. unfold sections in Hk.
    rewrite !ensure_lookup.
    repeat (apply elem_of_cons in Hk as [->|Hk]; [reflexivity|]).
    by apply elem_of_nil in Hk.
  - intros k Hk. rewrite !ensure_lookup.
    assert (forall s, s ∈ sections -> String.eqb k s = false) as Hne.
    { intros s Hs. apply String.eqb_neq. by intros ->. }
    rewrite !Hne; [done | unfold sections; set_solver..].
  - intros ->. reflexivity.
Qed.

Lemma validator_defaults_sections_witness :
  @orjson_loads Sample.runtime "{}" = Loaded (VDict [])
  /\ @MDLValidator.run Sample.runtime "{}"
     = Ok (VDict [("models", VList []); ("views", VList []);
                  ("relationships", VList []); ("metrics", VList [])]).
Proof.
  split; [reflexivity|].
  destruct (@validator_defaults_sections Sample.runtime "{}" [] eq_refl)
    as (d' & Hrun & _ & _ & Hd).
  rewrite Hrun, (Hd eq_refl). reflexivity.
Defined.

(** C6 (as stated) fails on a text that is valid JSON but not an object: the
    array [[]] parses, lacks "models", and [mdl_json["models"] = []] raises
    [TypeError]. *)
Lemma validator_raises_on_array :
  @orjson_loads Sample.runtime "[]" = Loaded (VList [])
  /\ @MDLValidator.run Sample.runtime "[]" = Err TypeError.
Proof. split; reflexivity. Qed.

(** ** The shape of a successful [DDLConverter.run] *)

Lemma run_inv `{RT : Runtime} (mdl : value) (docs : list Document.t) :
  DDLConverter.run mdl = Ok docs ->
  exists (relationships : value) (models sms metrics views : list value)
         (pk_map : Py.pydict) (tables metric_tables view_ddls : list string),
    Py.getitem mdl "relationships" = Ok relationships
    /\ items mdl "models" = Ok models
    /\ items mdl "metrics" = Ok metrics
    /\ items mdl "views" = Ok views
    /\ mapM DDLConverter.semantic_model models = Ok sms
    /\ DDLConverter.primary_keys_map sms = Ok pk_map
    /\ mapM (DDLConverter.create_table pk_map relationships) sms = Ok tables
    /\ mapM DDLConverter.metric_table metrics = Ok metric_tables
    /\ mapM DDLConverter._format views = Ok view_ddls
    /\ docs = documents (tables ++ metric_tables ++ view_ddls).
Proof.
  unfold DDLConverter.run. intros H.
  bind_inv H as relationships Hrels. bind_inv H as views Hviews.
  bind_inv H as metrics Hmetrics. bind_inv H as ms0 Hmodels.
  bind_inv H as models Hiter. bind_inv H as sms Hsms.
  bind_inv H as tables Htables. bind_inv H as metric_tables Hmt.
  bind_inv H as view_ddls Hvd. injection H as <-.
  unfold DDLConverter._convert_models_and_relationships in Htables.
  bind_inv Htables as pk_map Hpk.
  unfold DDLConverter._convert_metrics in Hmt. bind_inv Hmt as ms Hms.
  unfold DDLConverter._convert_views in Hvd. bind_inv Hvd as vs Hvs.
  exists relationships, models, sms, ms, vs, pk_map, tables, metric_tables, view_ddls.
  unfold items. rewrite Hmodels, Hmetrics, Hviews. cbn [bind].
  by repeat split.
Qed.

(** What [run] keeps of a model. *)
Lemma semantic_model_fields (model sm : value) :
  DDLConverter.semantic_model model = Ok sm ->
  exists name properties columns primaryKey,
    sm = VDict [("type", VStr "model"); ("name", name); ("properties", properties);
                ("columns", VList columns); ("primaryKey", primaryKey)]
    /\ Py.getitem model "name" = Ok name
    /\ Py.getitem model "primaryKey" = Ok primaryKey.
Proof.
  unfold DDLConverter.semantic_model. intros H.
  bind_inv H as cs0 Hcs0. bind_inv H as cs Hcs. bind_inv H as columns Hcols.
  bind_inv H as name Hname. bind_inv H as p Hp. bind_inv H as properties Hprops.
  bind_inv H as primaryKey Hpk. injection H as <-.
  by exists name, properties, columns, primaryKey.
Qed.

Lemma semantic_model_getitem (model sm : value) :
  DDLConverter.semantic_model model = Ok sm ->
  Py.getitem sm "name" = Py.getitem model "name"
  /\ Py.getitem sm "primaryKey" = Py.getitem model "primaryKey".
Proof.
  intros H.
  destruct (semantic_model_fields _ _ H) as (n & p & c & k & -> & Hn & Hk).
  by rewrite Hn, Hk.
Qed.

(** ** C3: the end-to-end scenario *)

(** C3 (as amended): an MDL whose only model is [customers], with primary key
    "id", the single column [{name: "id", type: "int"}] and no properties,
    and whose relationships, metrics and views are empty, compiles to exactly
    one document, with id "0"; its content is the CREATE TABLE block preceded
    by the comment block of the properties, which [run] defaulted to the
    empty dict. *)
Theorem single_model_ddl `{RT : Runtime} (mdl : value) (m c : list (string * value)) :
  orjson_dumps (VDict []) = "{}" ->
  Py.getitem mdl "models" = Ok (VList [VDict m]) ->
  Py.getitem mdl "relationships" = Ok (VList []) ->
  Py.getitem mdl "metrics" = Ok (VList []) ->
  Py.getitem mdl "views" = Ok (VList []) ->
  Py.dict_lookup "name" m = Some (VStr "customers") ->
  Py.dict_lookup "primaryKey" m = Some (VStr "id") ->
  Py.dict_lookup "columns" m = Some (VList [VDict c]) ->
  Py.dict_lookup "properties" m = None ->
  Py.dict_lookup "name" c = Some (VStr "id") ->
  Py.dict_lookup "type" c = Some (VStr "int") ->
  (forall k, k ∈ ["properties"; "relationship"; "expression"; "isCalculated"] ->
     Py.dict_lookup k c = None) ->
  DDLConverter.run mdl
  = Ok [Document.mk "0" [("id", "0")]
          (nl +:+ "/* {} */" +:+ nl +:+ "CREATE TABLE customers (" +:+ nl
           +:+ "  id int PRIMARY KEY" +:+ nl +:+ ");")].
Proof.
  intros Hdumps Hmodels Hrels Hmetrics Hviews Hname Hpk Hcols Hprops Hcname Hctype Hnone.
  assert (Py.dict_lookup "properties" c = None) as Hc1 by (apply Hnone; set_solver).
  assert (Py.dict_lookup "relationship" c = None) as Hc2 by (apply Hnone; set_solver).
  assert (Py.dict_lookup "expression" c = None) as Hc3 by (apply Hnone; set_solver).
  assert (Py.dict_lookup "isCalculated" c = None) as Hc4 by (apply Hnone; set_solver).
  unfold DDLConverter.run. rewrite Hrels, Hviews, Hmetrics, Hmodels.
  cbn [bind Py.iter mapM].
  unfold DDLConverter.semantic_model, DDLConverter.ddl_column,
    DDLConverter.copy_if_present, Py.has_key, Py.contains, Py.getitem.
  rewrite Hcols, Hname, Hpk, Hprops.
  cbn [bind Py.iter mapM].
  rewrite Hcname, Hctype, Hc1, Hc2, Hc3, Hc4.
  cbn.
  rewrite Hdumps. vm_compute. reflexivity.
Qed.

Lemma single_model_ddl_witness :
  @orjson_dumps Sample.runtime (VDict []) = "{}"
  /\ @DDLConverter.run Sample.runtime customers_mdl
     = Ok [Document.mk "0" [("id", "0")]
             (nl +:+ "/* {} */" +:+ nl +:+ "CREATE TABLE customers (" +:+ nl
              +:+ "  id int PRIMARY KEY" +:+ nl +:+ ");")].
Proof.
  split; [reflexivity|].
  apply (@single_model_ddl Sample.runtime customers_mdl
           [("name", VStr "customers"); ("primaryKey", VStr "id");
            ("columns", VList [VDict [("name", VStr "id"); ("type", VStr "int")]])]
           [("name", VStr "id"); ("type", VStr "int")]);
    try reflexivity.
  intros k Hk.
  repeat (apply elem_of_cons in Hk as [->|Hk]; [reflexivity|]).
  by apply elem_of_nil in Hk.
Defined.

(** C3 (as stated) fails: the one document of the scenario does not consist
    of the CREATE TABLE statement alone. *)
Lemma single_model_ddl_is_not_bare :
  exists d,
    @DDLConverter.run Sample.runtime customers_mdl = Ok [d]
    /\ Document.id d = "0"
    /\ String.eqb (Document.content d)
         ("CREATE TABLE customers (" +:+ nl +:+ "  id int PRIMARY KEY" +:+ nl +:+ ");")
       = false.
Proof.
  eexists. split; [vm_compute; reflexivity|]. split; reflexivity.
Qed.

(** ** C5: the order and the ids of the DDL documents *)

(** C5: when [DDLConverter.run] returns, its documents are one block per
    model in input order, then one block per metric in input order, then one
    block per view in input order, and the id of each document is the string
    form of its zero-based position in that list. *)
Theorem ddl_documents_order `{RT : Runtime} (mdl : value) (docs : list Document.t) :
  DDLConverter.run mdl = Ok docs ->
  exists (models metrics views : list value) (relationships : value)
         (pk_map : Py.pydict),
    items mdl "models" = Ok models
    /\ items mdl "metrics" = Ok metrics
    /\ items mdl "views" = Ok views
    /\ Py.getitem mdl "relationships" = Ok relationships
    /\ length docs = length models + length metrics + length views
    /\ (forall i d, docs !! i = Some d -> Document.id d = str i)
    /\ (forall i model, models !! i = Some model ->
          exists d sm,
            docs !! i = Some d
            /\ DDLConverter.semantic_model model = Ok sm
            /\ DDLConverter.create_table pk_map relationships sm
               = Ok (Document.content d))
    /\ (forall j metric, metrics !! j = Some metric ->
          exists d,
            docs !! (length models + j) = Some d
            /\ DDLConverter.metric_table metric = Ok (Document.content d))
    /\ (forall j view, views !! j = Some view ->
          exists d,
            docs !! (length models + length metrics + j) = Some d
            /\ DDLConverter._format view = Ok (Document.content d)).
Proof.
  intros H.
  destruct (run_inv _ _ H) as (relationships & models & sms & ms & vs & pk_map
    & tables & metric_tables & view_ddls & Hrels & Hmodels & Hmetrics & Hviews
    & Hsms & Hpk & Htables & Hmt & Hvd & ->).
  pose proof (mapM_length _ _ _ Hsms) as Lsm.
  pose proof (mapM_length _ _ _ Htables) as Ltab.
  pose proof (mapM_length _ _ _ Hmt) as Lmet.
  pose proof (mapM_length _ _ _ Hvd) as Lview.
  exists models, ms, vs, relationships, pk_map.
  repeat split; try assumption.
  - rewrite documents_length, !length_app. lia.
  - intros i d Hd. rewrite documents_lookup in Hd.
    destruct (_ !! i); [|discriminate]. by injection Hd as <-.
  - intros i model Hi.
    destruct (mapM_lookup _ _ _ _ _ Hsms Hi) as (sm & Hsm & Hf).
    destruct (mapM_lookup _ _ _ _ _ Htables Hsm) as (block & Hb & Hc).
    exists (Document.mk (str i) [("id", str i)] block), sm.
    rewrite documents_lookup, lookup_app_l, Hb by (apply lookup_lt_Some in Hb; lia).
    done.
  - intros j metric Hj.
    destruct (mapM_lookup _ _ _ _ _ Hmt Hj) as (block & Hb & Hc).
    exists (Document.mk (str (length models + j)) [("id", str (length models + j))] block).
    rewrite documents_lookup, lookup_app_r by lia.
    replace (length models + j - length tables) with j by lia.
    rewrite lookup_app_l, Hb by (apply lookup_lt_Some in Hb; lia).
    done.
  - intros j view Hj.
    destruct (mapM_lookup _ _ _ _ _ Hvd Hj) as (block & Hb & Hc).
    exists (Document.mk (str (length models + length ms + j))
              [("id", str (length models + length ms + j))] block).
    rewrite documents_lookup, lookup_app_r by lia.
    rewrite lookup_app_r by lia.
    replace (length models + length ms + j - length tables - length metric_tables)
      with j by lia.
    rewrite Hb. done.
Qed.

Lemma ddl_documents_order_witness :
  exists docs,
    @DDLConverter.run Sample.runtime shop_mdl = Ok docs
    /\ length docs = 4
    /\ forall i d, docs !! i = Some d -> Document.id d = str i.
Proof.
  eexists. split; [vm_compute; reflexivity|].
  match goal with
  | |- context [length ?docs] =>
      destruct (@ddl_documents_order Sample.runtime shop_mdl docs
                  ltac:(vm_compute; reflexivity))
        as (models & metrics & views & rels & pk & Hm & Hk & Hv & _ & Hlen & Hid & _)
  end.
  vm_compute in Hm. injection Hm as <-.
  vm_compute in Hk. injection Hk as <-.
  vm_compute in Hv. injection Hv as <-.
  split; [exact Hlen | exact Hid].
Defined.

(** ** The primary-key map and the loop over the relationships *)

(** The primary key the map holds for a table named [B] is the one the last
    model of that name declares. *)
Lemma primary_keys_fold (models : list value) (m0 m : Py.pydict) (B : string)
  (pk : value) :
  foldM (fun m model =>
           let* name := Py.getitem model "name" in
           let* primaryKey := Py.getitem model "primaryKey" in
           Py.pydict_set name primaryKey m) models m0 = Ok m ->
  Py.pydict_lookup (VStr B) m = Some pk ->
  (exists j model,
      models !! j = Some model
      /\ Py.getitem model "name" = Ok (VStr B)
      /\ Py.getitem model "primaryKey" = Ok pk
      /\ forall j' model', j < j' -> models !! j' = Some model' ->
           Py.getitem model' "name" <> Ok (VStr B))
  \/ (Py.pydict_lookup (VStr B) m0 = Some pk
      /\ forall model, model ∈ models -> Py.getitem model "name" <> Ok (VStr B)).
Proof.
  revert m0. induction models as [|x models IH]; intros m0 Hfold Hlook.
  - injection Hfold as <-. right. split; [done|]. intros model Hin.
    by apply elem_of_nil in Hin.
  - cbn [foldM] in Hfold. bind_inv Hfold as m1 Hstep.
    bind_inv Hstep as name Hname. bind_inv Hstep as pk' Hpk.
    unfold Py.pydict_set in Hstep.
    destruct (Py.hashable name); [|discriminate]. injection Hstep as <-.
    destruct (IH _ Hfold Hlook) as [(j & model & Hj & Hn & Hp & Hlater)|[Hl Hnone]].
    + left. exists (S j), model. repeat split; try done.
      intros [|j'] model' Hlt Hj'; [lia|]. apply (Hlater j'); [lia | done].
    + rewrite pydict_lookup_insert_str in Hl.
      destruct (Py.equal name (VStr B)) eqn:E.
      * apply equal_str_r in E as ->. injection Hl as ->.
        left. exists 0, x. repeat split; try done.
        intros [|j'] model' Hlt Hj'; [lia|]. apply Hnone.
        by eapply list_elem_of_lookup_2.
      * right. split; [done|]. intros model Hin.
        apply elem_of_cons in Hin as [->|Hin]; [|by apply Hnone].
        rewrite Hname. intros [= ->]. by rewrite equal_str_refl in E.
Qed.

Lemma primary_keys_map_lookup (models : list value) (m : Py.pydict)
  (B : string) (pk : value) :
  DDLConverter.primary_keys_map models = Ok m ->
  Py.pydict_lookup (VStr B) m = Some pk ->
  exists j model,
    models !! j = Some model
    /\ Py.getitem model "name" = Ok (VStr B)
    /\ Py.getitem model "primaryKey" = Ok pk
    /\ forall j' model', j < j' -> models !! j' = Some model' ->
         Py.getitem model' "name" <> Ok (VStr B).
Proof.
  intros Hm Hl.
  destruct (primary_keys_fold _ _ _ _ _ Hm Hl) as [H|[H _]]; [done | discriminate].
Qed.

(** A turn of the relationship loop appends what it would append to the
    empty list. *)
Lemma foreign_key_appends `{RT : Runtime} (pk_map : Py.pydict) (t : value)
  (acc : list string) (r : value) :
  DDLConverter.foreign_key pk_map t acc r
  = let* ext := DDLConverter.foreign_key pk_map t [] r in Ok (acc ++ ext).
Proof.
  unfold DDLConverter.foreign_key.
  repeat first
    [ progress cbn [bind app]
    | reflexivity
    | match goal with
      | |- context [bind ?m _] =>
          lazymatch m with
          | bind _ _ => fail
          | if _ then _ else _ => fail
          | Ok _ => fail
          | Err _ => fail
          | _ => destruct m as [?|?]
          end
      | |- context [if ?b then _ else _] => is_var b; destruct b
      end ].
  all: by rewrite app_nil_r.
Qed.

Lemma foreign_key_loop `{RT : Runtime} (pk_map : Py.pydict) (t : value)
  (rs : list value) (acc lines : list string) :
  foldM (DDLConverter.foreign_key pk_map t) rs acc = Ok lines ->
  exists exts,
    mapM (DDLConverter.foreign_key pk_map t []) rs = Ok exts
    /\ lines = acc ++ concat exts.
Proof.
  revert acc. induction rs as [|r rs IH]; intros acc H.
  - injection H as <-. exists []. by rewrite app_nil_r.
  - cbn [foldM] in H. bind_inv H as acc' Hr.
    rewrite foreign_key_appends in Hr. bind_inv Hr as ext Hext.
    injection Hr as <-.
    destruct (IH _ H) as (exts & Hexts & ->).
    exists (ext :: exts). cbn [mapM]. rewrite Hext, Hexts. cbn [bind concat].
    by rewrite app_assoc.
Qed.

(** The block of a model that went through [run]. *)
Lemma create_table_semantic `{RT : Runtime} (pk_map : Py.pydict) (rels : value)
  (name properties primaryKey : value) (columns : list value) (content : string) :
  let sm := VDict [("type", VStr "model"); ("name", name); ("properties", properties);
                   ("columns", VList columns); ("primaryKey", primaryKey)] in
  DDLConverter.create_table pk_map rels sm = Ok content ->
  exists columns_ddl rs exts,
    foldM (DDLConverter.column_ddl sm) columns [] = Ok columns_ddl
    /\ Py.iter rels = Ok rs
    /\ mapM (DDLConverter.foreign_key pk_map name []) rs = Ok exts
    /\ content = nl +:+ "/* " +:+ orjson_dumps properties +:+ " */" +:+ nl
                 +:+ "CREATE TABLE " +:+ fmt name +:+ " (" +:+ nl +:+ "  "
                 +:+ Str.join line_sep (columns_ddl ++ concat exts) +:+ nl +:+ ");".
Proof.
  intros sm H. unfold DDLConverter.create_table in H.
  cbn [sm Py.getitem Py.dict_lookup String.eqb Ascii.eqb Bool.eqb bind Py.iter] in H.
  bind_inv H as columns_ddl Hcols. bind_inv H as rs Hrs. bind_inv H as lines Hlines.
  destruct (foreign_key_loop _ _ _ _ _ Hlines) as (exts & Hexts & ->).
  exists columns_ddl, rs, exts. repeat split; try done.
  cbn in H. injection H as <-. by rewrite !append_assoc.
Qed.

Lemma fk_constraint_inv `{RT : Runtime} (pk_map : Py.pydict) (column B fk : string) :
  DDLConverter.fk_constraint pk_map column (VStr B) = Ok fk ->
  exists pk, Py.pydict_lookup (VStr B) pk_map = Some pk /\ fk = fk_line column B pk.
Proof.
  unfold DDLConverter.fk_constraint, Py.pydict_getitem. cbn [Py.hashable].
  intros H. bind_inv H as pk Hpk. injection H as <-.
  destruct (Py.pydict_lookup (VStr B) pk_map) as [pk'|]; [|discriminate].
  injection Hpk as ->. by exists pk.
Qed.

(** The column names of a well-formed condition. *)
Lemma fk_column_left (r : value) (t c rhs : string) :
  Py.getitem r "condition" = Ok (VStr (t +:+ "." +:+ c +:+ " = " +:+ rhs)) ->
  is_name t = true -> is_name c = true ->
  DDLConverter.fk_column r 0 = Ok c.
Proof.
  intros Hc Ht Hn. unfold DDLConverter.fk_column. rewrite Hc.
  cbn [bind Py.split]. rewrite split_condition_left by done.
  cbn [Py.nth_str lookup list_lookup bind]. by rewrite split_dotted.
Qed.

Lemma fk_column_right (r : value) (t1 c1 t2 c2 : string) :
  Py.getitem r "condition" = Ok (VStr (join_condition t1 c1 t2 c2)) ->
  is_name t1 = true -> is_name c1 = true ->
  is_name t2 = true -> is_name c2 = true ->
  DDLConverter.fk_column r 1 = Ok c2.
Proof.
  intros Hc H1 H2 H3 H4. unfold DDLConverter.fk_column. rewrite Hc.
  cbn [bind Py.split]. rewrite split_condition by done.
  cbn [Py.nth_str lookup list_lookup bind]. by rewrite split_dotted.
Qed.

Lemma join_type_is_upper (r : value) (jt name : string) :
  Py.getitem r "joinType" = Ok (VStr jt) ->
  DDLConverter.join_type_is r name = Ok (String.eqb (Str.upper jt) name).
Proof. intros H. unfold DDLConverter.join_type_is. by rewrite H. Qed.

(** MANY_TO_ONE, seen from the first model. *)
Lemma foreign_key_many_to_one `{RT : Runtime} (pk_map : Py.pydict) (r : value)
  (A B jt : string) :
  Py.getitem r "models" = Ok (VList [VStr A; VStr B]) ->
  Py.getitem r "joinType" = Ok (VStr jt) ->
  Str.upper jt = "MANY_TO_ONE" ->
  DDLConverter.foreign_key pk_map (VStr A) [] r
  = let* column := DDLConverter.fk_column r 0 in
    let* fk := DDLConverter.fk_constraint pk_map column (VStr B) in
    Ok [fk].
Proof.
  intros Hm Hjt Hu. unfold DDLConverter.foreign_key, and_then.
  rewrite Hm, (join_type_is_upper _ _ _ Hjt), Hu.
  cbn [bind Py.getindex lookup list_lookup].
  by rewrite equal_str_refl, String.eqb_refl.
Qed.

Lemma foreign_key_one_to_many `{RT : Runtime} (pk_map : Py.pydict) (r : value)
  (A B jt : string) :
  Py.getitem r "models" = Ok (VList [VStr A; VStr B]) ->
  Py.getitem r "joinType" = Ok (VStr jt) ->
  Str.upper jt = "ONE_TO_MANY" ->
  DDLConverter.foreign_key pk_map (VStr B) [] r
  = let* column := DDLConverter.fk_column r 1 in
    let* fk := DDLConverter.fk_constraint pk_map column (VStr A) in
    Ok [fk].
Proof.
  intros Hm Hjt Hu. unfold DDLConverter.foreign_key, and_then.
  rewrite Hm, !(join_type_is_upper _ _ _ Hjt), Hu.
  cbn [bind Py.getindex lookup list_lookup].
  change (String.eqb "ONE_TO_MANY" "MANY_TO_ONE") with false.
  rewrite equal_str_refl, String.eqb_refl.
  by destruct (Py.equal (VStr B) (VStr A)).
Qed.

(** ONE_TO_ONE, seen from the first and from the second model. *)
Lemma foreign_key_one_to_one_first `{RT : Runtime} (pk_map : Py.pydict) (r : value)
  (A B jt : string) :
  A <> B ->
  Py.getitem r "models" = Ok (VList [VStr A; VStr B]) ->
  Py.getitem r "joinType" = Ok (VStr jt) ->
  Str.upper jt = "ONE_TO_ONE" ->
  DDLConverter.foreign_key pk_map (VStr A) [] r
  = let* column := DDLConverter.fk_column r 0 in
    let* fk := DDLConverter.fk_constraint pk_map column (VStr B) in
    Ok [fk].
Proof.
  intros Hne Hm Hjt Hu.
  unfold DDLConverter.foreign_key, and_then, DDLConverter.other_model.
  rewrite Hm, !(join_type_is_upper _ _ _ Hjt), Hu.
  cbn [bind Py.getindex lookup list_lookup Py.contains existsb Py.index
       Py.list_index Py.iter].
  rewrite equal_str_refl, (equal_str_ne A B Hne).
  assert (Py.equal (VStr B) (VStr A) = false) as E by (apply equal_str_ne; congruence).
  rewrite E, String.eqb_refl.
  change (String.eqb "ONE_TO_ONE" "MANY_TO_ONE") with false.
  cbn [bind orb fmap option_fmap option_map].
  rewrite filter_cons_False by (by rewrite equal_str_refl).
  rewrite filter_cons_True by done.
  reflexivity.
Qed.

Lemma foreign_key_one_to_one_second `{RT : Runtime} (pk_map : Py.pydict) (r : value)
  (A B jt : string) :
  A <> B ->
  Py.getitem r "models" = Ok (VList [VStr A; VStr B]) ->
  Py.getitem r "joinType" = Ok (VStr jt) ->
  Str.upper jt = "ONE_TO_ONE" ->
  DDLConverter.foreign_key pk_map (VStr B) [] r
  = let* column := DDLConverter.fk_column r 1 in
    let* fk := DDLConverter.fk_constraint pk_map column (VStr A) in
    Ok [fk].
Proof.
  intros Hne Hm Hjt Hu.
  unfold DDLConverter.foreign_key, and_then, DDLConverter.other_model.
  rewrite Hm, !(join_type_is_upper _ _ _ Hjt), Hu.
  cbn [bind Py.getindex lookup list_lookup Py.contains existsb Py.index
       Py.list_index Py.iter].
  assert (Py.equal (VStr B) (VStr A) = false) as E by (apply equal_str_ne; congruence).
  rewrite equal_str_refl, (equal_str_ne A B Hne), E, String.eqb_refl.
  change (String.eqb "ONE_TO_ONE" "ONE_TO_MANY") with false.
  cbn [bind orb fmap option_fmap option_map].
  rewrite filter_cons_True by (exact (equal_str_ne A B Hne)).
  reflexivity.
Qed.

Lemma applies_foreign_key `{RT : Runtime} (pk_map : Py.pydict) (r : value)
  (A B : string) (k : nat) :
  applies r A k B ->
  DDLConverter.foreign_key pk_map (VStr A) [] r
  = let* column := DDLConverter.fk_column r k in
    let* fk := DDLConverter.fk_constraint pk_map column (VStr B) in
    Ok [fk].
Proof.
  intros [A' B' jt Hm Hjt Hu|A' B' jt Hm Hjt Hu|A' B' jt Hne Hm Hjt Hu
         |A' B' jt Hne Hm Hjt Hu].
  - by eapply foreign_key_many_to_one.
  - by eapply foreign_key_one_to_many.
  - by eapply foreign_key_one_to_one_first.
  - by eapply foreign_key_one_to_one_second.
Qed.

(** The block of the model at position [i], named [A], carries the constraint
    of every relationship that resolves, for [A], to a column [col] and a
    related table [B]. *)
Lemma table_block_references `{RT : Runtime} (mdl : value) (docs : list Document.t)
  (models rels : list value) (i k : nat) (model r : value) (A B col : string) :
  DDLConverter.run mdl = Ok docs ->
  items mdl "models" = Ok models ->
  items mdl "relationships" = Ok rels ->
  models !! i = Some model ->
  Py.getitem model "name" = Ok (VStr A) ->
  r ∈ rels ->
  (forall pk_map,
     DDLConverter.foreign_key pk_map (VStr A) [] r
     = let* column := DDLConverter.fk_column r k in
       let* fk := DDLConverter.fk_constraint pk_map column (VStr B) in
       Ok [fk]) ->
  DDLConverter.fk_column r k = Ok col ->
  exists d, docs !! i = Some d /\ Document.id d = str i
            /\ table_references models d A col B.
Proof.
  intros Hrun Hmodels Hrels Hi Hname Hr Hfk Hcol.
  destruct (run_inv _ _ Hrun) as (relationships & models' & sms & ms & vs & pk_map
    & tables & metric_tables & view_ddls & Hrel & Hmodels' & _ & _
    & Hsms & Hpk & Htables & _ & _ & ->).
  rewrite Hmodels in Hmodels'. injection Hmodels' as <-.
  unfold items in Hrels. rewrite Hrel in Hrels. cbn [bind] in Hrels.
  destruct (mapM_lookup _ _ _ _ _ Hsms Hi) as (sm & Hsm & Hsem).
  destruct (mapM_lookup _ _ _ _ _ Htables Hsm) as (block & Hblock & Hcreate).
  destruct (semantic_model_fields _ _ Hsem) as (n & props & cols & pkv & -> & Hn & _).
  rewrite Hname in Hn. injection Hn as <-.
  apply create_table_semantic in Hcreate
    as (columns_ddl & rs & exts & _ & Hrs & Hexts & ->).
  rewrite Hrels in Hrs. injection Hrs as <-.
  apply list_elem_of_lookup in Hr as (q & Hq).
  destruct (mapM_lookup _ _ _ _ _ Hexts Hq) as (ext & Hext & Hres).
  rewrite Hfk, Hcol in Hres. cbn [bind] in Hres.
  bind_inv Hres as fk Hcons. injection Hres as <-.
  apply fk_constraint_inv in Hcons as (pk & Hlook & ->).
  destruct (primary_keys_map_lookup _ _ _ _ Hpk Hlook)
    as (j & smj & Hj & Hnj & Hpj & Hlater).
  apply mapM_Forall2 in Hsms.
  destruct (Forall2_lookup_r _ _ _ _ _ Hsms Hj) as (mj & Hmj & Hsemj).
  apply semantic_model_getitem in Hsemj as [En Ep].
  exists (Document.mk (str i) [("id", str i)]
            (nl +:+ "/* " +:+ orjson_dumps props +:+ " */" +:+ nl
             +:+ "CREATE TABLE " +:+ fmt (VStr A) +:+ " (" +:+ nl +:+ "  "
             +:+ Str.join line_sep (columns_ddl ++ concat exts) +:+ nl +:+ ");")).
  split; [|split; [done|]].
  - rewrite documents_lookup, lookup_app_l by (apply lookup_lt_Some in Hblock; lia).
    by rewrite Hblock.
  - exists props, columns_ddl, (concat exts), j, mj, pk.
    repeat split; try done.
    + apply (elem_of_concat _ [fk_line col B pk]); [by left|].
      by eapply list_elem_of_lookup_2.
    + by rewrite <- En.
    + by rewrite <- Ep.
    + intros j' m' Hlt Hm'.
      destruct (Forall2_lookup_l _ _ _ _ _ Hsms Hm') as (sm' & Hsm' & Hsem').
      apply semantic_model_getitem in Hsem' as [En' _].
      rewrite <- En'. by apply (Hlater j').
Qed.

(** ** C1: MANY_TO_ONE gives the first model a foreign key *)

(** C1: let the MDL compile, let its model at position [i] be named [A], and
    let it hold a relationship [{models: [A, B], joinType: MANY_TO_ONE,
    condition: "t.c = ..."}] (the join type in any letter case, [t] and [c]
    names without dot or blank).  Then document [i] is the CREATE TABLE block
    of [A] and contains the line [FOREIGN KEY (c) REFERENCES B(pk)], [pk]
    being the primary key declared by the model named [B].  With
    [A = "orders"], [B = "customers"] and the condition
    ["orders.customer_id = customers.id"] the line is
    [FOREIGN KEY (customer_id) REFERENCES customers(pk)]. *)
Theorem many_to_one_foreign_key `{RT : Runtime} (mdl : value)
  (docs : list Document.t) (models rels : list value) (i : nat) (model r : value)
  (A B jt t c rhs : string) :
  DDLConverter.run mdl = Ok docs ->
  items mdl "models" = Ok models ->
  items mdl "relationships" = Ok rels ->
  models !! i = Some model ->
  Py.getitem model "name" = Ok (VStr A) ->
  r ∈ rels ->
  Py.getitem r "models" = Ok (VList [VStr A; VStr B]) ->
  Py.getitem r "joinType" = Ok (VStr jt) ->
  Str.upper jt = "MANY_TO_ONE" ->
  Py.getitem r "condition" = Ok (VStr (t +:+ "." +:+ c +:+ " = " +:+ rhs)) ->
  is_name t = true ->
  is_name c = true ->
  exists d, docs !! i = Some d /\ Document.id d = str i
            /\ table_references models d A c B.
Proof.
  intros Hrun Hmodels Hrels Hi Hname Hr Hm Hjt Hu Hc Ht Hn.
  eapply (table_block_references mdl docs models rels i 0 model r A B c);
    try eassumption.
  - intros pk_map. by eapply foreign_key_many_to_one.
  - by eapply fk_column_left.
Qed.

Lemma many_to_one_foreign_key_witness :
  exists docs,
    @DDLConverter.run Sample.runtime shop_mdl = Ok docs
    /\ exists d, docs !! 0 = Some d /\ Document.id d = str 0
         /\ @table_references Sample.runtime [orders_model; customers_model] d
              "orders" "customer_id" "customers".
Proof.
  eexists. split; [vm_compute; reflexivity|].
  eapply (@many_to_one_foreign_key Sample.runtime shop_mdl _
            [orders_model; customers_model] [orders_customers] 0 orders_model
            orders_customers "orders" "customers" "MANY_TO_ONE" "orders"
            "customer_id" "customers.id");
    try reflexivity.
  by left.
Defined.

(** ** C4: ONE_TO_ONE gives both models a foreign key *)

(** C4: let the MDL compile and hold a relationship [{models: [A, B],
    joinType: ONE_TO_ONE, condition: "t1.c1 = t2.c2"}] between two
    different models.  Then the block of [A] contains
    [FOREIGN KEY (c1) REFERENCES B(pk of B)] and the block of [B] contains
    [FOREIGN KEY (c2) REFERENCES A(pk of A)]: each side takes the column at
    its own position in the condition and references the other table. *)
Theorem one_to_one_foreign_keys `{RT : Runtime} (mdl : value)
  (docs : list Document.t) (models rels : list value) (ia ib : nat)
  (ma mb r : value) (A B jt t1 c1 t2 c2 : string) :
  DDLConverter.run mdl = Ok docs ->
  items mdl "models" = Ok models ->
  items mdl "relationships" = Ok rels ->
  models !! ia = Some ma ->
  Py.getitem ma "name" = Ok (VStr A) ->
  models !! ib = Some mb ->
  Py.getitem mb "name" = Ok (VStr B) ->
  A <> B ->
  r ∈ rels ->
  Py.getitem r "models" = Ok (VList [VStr A; VStr B]) ->
  Py.getitem r "joinType" = Ok (VStr jt) ->
  Str.upper jt = "ONE_TO_ONE" ->
  Py.getitem r "condition" = Ok (VStr (join_condition t1 c1 t2 c2)) ->
  is_name t1 = true -> is_name c1 = true ->
  is_name t2 = true -> is_name c2 = true ->
  (exists da, docs !! ia = Some da /\ Document.id da = str ia
              /\ table_references models da A c1 B)
  /\ (exists db, docs !! ib = Some db /\ Document.id db = str ib
                 /\ table_references models db B c2 A).
Proof.
  intros Hrun Hmodels Hrels Ha Hna Hb Hnb Hne Hr Hm Hjt Hu Hc H1 H2 H3 H4.
  split.
  - eapply (table_block_references mdl docs models rels ia 0 ma r A B c1);
      try eassumption.
    + intros pk_map. by eapply foreign_key_one_to_one_first.
    + by apply (fk_column_left r t1 c1 (t2 +:+ "." +:+ c2)).
  - eapply (table_block_references mdl docs models rels ib 1 mb r B A c2);
      try eassumption.
    + intros pk_map. by eapply foreign_key_one_to_one_second.
    + by eapply fk_column_right.
Qed.

Lemma one_to_one_foreign_keys_witness :
  exists docs models,
    @DDLConverter.run Sample.runtime pair_mdl = Ok docs
    /\ items pair_mdl "models" = Ok models
    /\ (exists da, docs !! 0 = Some da /\ Document.id da = str 0
          /\ @table_references Sample.runtime models da "a" "x" "b")
    /\ (exists db, docs !! 1 = Some db /\ Document.id db = str 1
          /\ @table_references Sample.runtime models db "b" "y" "a").
Proof.
  eexists. eexists. split; [vm_compute; reflexivity|].
  split; [reflexivity|].
  eapply (@one_to_one_foreign_keys Sample.runtime pair_mdl _ _ [a_b] 0 1 _ _ a_b
            "a" "b" "ONE_TO_ONE" "a" "x" "b" "y");
    try reflexivity.
  - discriminate.
  - by left.
Defined.

(** ** C7: how foreign-key resolution fails *)

(** C7 (as amended): for a relationship that applies to the table [A], with
    the string [cond] as its condition, resolution
    - raises [IndexError] when side [k] of the condition is missing or has no
      dot;
    - raises [KeyError], carrying the related table's name, when that side
      yields a column and the related table is not in the primary-key map;
    - and otherwise appends the constraint: the other sides of the condition
      are not looked at. *)
Theorem foreign_key_resolution `{RT : Runtime} (pk_map : Py.pydict)
  (acc : list string) (r : value) (A B cond : string) (k : nat) :
  applies r A k B ->
  Py.getitem r "condition" = Ok (VStr cond) ->
  (forall side,
     Str.split " = " cond !! k = None
     \/ (Str.split " = " cond !! k = Some side /\ has_char "." side = false) ->
     DDLConverter.foreign_key pk_map (VStr A) acc r = Err IndexError)
  /\ (forall side column,
        Str.split " = " cond !! k = Some side ->
        Str.split "." side !! 1 = Some column ->
        Py.pydict_lookup (VStr B) pk_map = None ->
        DDLConverter.foreign_key pk_map (VStr A) acc r = Err (KeyError (VStr B)))
  /\ (forall side column pk,
        Str.split " = " cond !! k = Some side ->
        Str.split "." side !! 1 = Some column ->
        Py.pydict_lookup (VStr B) pk_map = Some pk ->
        DDLConverter.foreign_key pk_map (VStr A) acc r
        = Ok (acc ++ [fk_line column B pk])).
Proof.
  intros Happ Hc.
  rewrite foreign_key_appends, (applies_foreign_key _ _ _ _ _ Happ).
  unfold DDLConverter.fk_column, DDLConverter.fk_constraint, Py.pydict_getitem,
    Py.nth_str.
  rewrite Hc. cbn [bind Py.split Py.hashable].
  split; [|split].
  - intros side [Hnone|[Hside Hdot]].
    + by rewrite Hnone.
    + rewrite Hside. cbn [bind]. by rewrite (split_whole "." "" side Hdot).
  - intros side column Hside Hcol Hpk. rewrite Hside. cbn [bind].
    by rewrite Hcol, Hpk.
  - intros side column pk Hside Hcol Hpk. rewrite Hside. cbn [bind].
    by rewrite Hcol, Hpk.
Qed.

Lemma foreign_key_resolution_witness :
  applies orders_customers "orders" 0 "customers"
  /\ @DDLConverter.foreign_key Sample.runtime [] (VStr "orders") [] orders_customers
     = Err (KeyError (VStr "customers")).
Proof.
  assert (applies orders_customers "orders" 0 "customers") as Happ
    by (by apply (applies_many_to_one _ "orders" "customers" "MANY_TO_ONE")).
  split; [exact Happ|].
  destruct (@foreign_key_resolution Sample.runtime [] [] orders_customers
              "orders" "customers" "orders.customer_id = customers.id" 0
              Happ eq_refl) as (_ & Hkey & _).
  by apply (Hkey "orders.customer_id" "customer_id").
Defined.

(** C7 (as stated) fails: a condition with a left side only does not split
    into two dotted references, and both tables compile, [orders] with its
    constraint; and a relationship to a missing model ends the run with a
    [KeyError] that carries the table name only. *)
Lemma one_sided_condition_is_accepted :
  Str.split " = " "orders.customer_id" = ["orders.customer_id"]
  /\ (exists d1 d2,
        @DDLConverter.run Sample.runtime one_sided_mdl = Ok [d1; d2]
        /\ @table_references Sample.runtime [orders_model; customers_model] d1
             "orders" "customer_id" "customers")
  /\ @DDLConverter.run Sample.runtime orphan_mdl = Err (KeyError (VStr "customers")).
Proof.
  split; [reflexivity|]. split; [|reflexivity].
  eexists. eexists. split; [vm_compute; reflexivity|].
  exists (VDict [("description", VStr "placed orders")]),
    ["order_id int PRIMARY KEY"; "customer_id int"],
    [@fk_line Sample.runtime "customer_id" "customers" (VStr "id")],
    1, customers_model, (VStr "id").
  repeat split; try reflexivity.
  - by left.
  - intros [|[|[|j']]] m' Hlt Hm'; try lia; discriminate.
Qed.

(** ** C8: the view projector *)

(** When [ViewConverter.property] returns, it returns what the description
    says. *)
Lemma property_spec (view : value) (k : string) (v : value) :
  ViewConverter.property view k = Ok v -> v = view_property view k.
Proof.
  unfold ViewConverter.property, and_then, Py.has_key. intros H.
  destruct view as [| | |s|l|d]; try discriminate.
  - (* a str: it has no item "properties" *)
    cbn [Py.contains bind] in H.
    destruct (Str.contains "properties" s); cbn [bind Py.getitem] in H;
      [discriminate | by injection H as <-].
  - (* a list *)
    cbn [Py.contains bind] in H.
    destruct (existsb _ l); cbn [bind Py.getitem] in H;
      [discriminate | by injection H as <-].
  - cbn [Py.contains bind Py.getitem view_property] in H |- *.
    destruct (Py.dict_lookup "properties" d) as [p|]; cbn [bind] in H;
      [|by injection H as <-].
    rewrite bool_decide_true in H by eauto. cbn [bind] in H.
    destruct p as [| | |s|l|p]; try discriminate.
    + cbn [Py.contains bind] in H.
      destruct (Str.contains k s); cbn [bind Py.getitem] in H;
        [discriminate | by injection H as <-].
    + cbn [Py.contains bind] in H.
      destruct (existsb _ l); cbn [bind Py.getitem] in H;
        [discriminate | by injection H as <-].
    + cbn [Py.contains bind Py.getitem] in H.
      destruct (Py.dict_lookup k p) as [x|]; cbn [bind default] in H |- *.
      * rewrite bool_decide_true in H by eauto. by injection H as <-.
      * rewrite bool_decide_false in H by (by intros [? ?]). by injection H as <-.
Qed.

Lemma format_spec `{RT : Runtime} (view : value) (content : string) :
  ViewConverter._format view = Ok content ->
  exists statement,
    Py.getitem view "statement" = Ok statement
    /\ content = py_str (view_record view statement).
Proof.
  unfold ViewConverter._format. intros H.
  bind_inv H as q Hq. bind_inv H as d Hd. bind_inv H as statement Hs.
  injection H as <-. apply property_spec in Hq as ->, Hd as ->.
  by exists statement.
Qed.

(** C8: when the view projector returns, on an MDL whose "views" is the list
    [views], it returns one document per view, in list order; the document
    at position [i] has id [str i] and its content is the text of the record
    [{question, description, statement}], where question and description are
    the view's [properties.question] and [properties.description], each the
    empty string when absent, and statement is the view's statement.  No
    view gives no document. *)
Theorem view_documents `{RT : Runtime} (mdl : value) (views : list value)
  (docs : list Document.t) :
  Py.getitem mdl "views" = Ok (VList views) ->
  ViewConverter.run mdl = Ok docs ->
  length docs = length views
  /\ (views = [] -> docs = [])
  /\ forall i view, views !! i = Some view ->
       exists statement,
         Py.getitem view "statement" = Ok statement
         /\ docs !! i
            = Some (Document.mk (str i) [("id", str i)]
                      (py_str (view_record view statement))).
Proof.
  intros Hviews H. unfold ViewConverter.run in H. rewrite Hviews in H.
  cbn [bind] in H. bind_inv H as converted Hconv. injection H as <-.
  assert (mapM ViewConverter._format views = Ok converted) as Hmap.
  { destruct views as [|v views]; [by injection Hconv as <- | exact Hconv]. }
  split; [|split].
  - rewrite documents_length. by eapply mapM_length.
  - intros ->. by injection Hmap as <-.
  - intros i view Hi.
    destruct (mapM_lookup _ _ _ _ _ Hmap Hi) as (content & Hc & Hf).
    apply format_spec in Hf as (statement & Hs & ->).
    exists statement. split; [done|].
    by rewrite documents_lookup, Hc.
Qed.

Lemma view_documents_witness :
  exists docs,
    @ViewConverter.run Sample.runtime shop_mdl = Ok docs
    /\ length docs = 1
    /\ docs !! 0
       = Some (Document.mk "0" [("id", "0")]
                 (@py_str Sample.runtime
                    (VDict [("question", VStr "who buys most");
                            ("description", VStr "");
                            ("statement", VStr "select * from customers")]))).
Proof.
  eexists. split; [vm_compute; reflexivity|].
  match goal with
  | |- context [length ?docs] =>
      destruct (@view_documents Sample.runtime shop_mdl [top_view] docs
                  eq_refl ltac:(vm_compute; reflexivity))
        as (Hlen & _ & Hdoc)
  end.
  split; [exact Hlen|].
  destruct (Hdoc 0 top_view eq_refl) as (statement & Hs & Hd).
  injection Hs as <-. exact Hd.
Defined.

(** ** C2: a text that is not JSON *)

Lemma delete_documents_lookup (ids : list string) (s : store) (id : string) :
  DocumentStore.delete_documents ids s !! id
  = if bool_decide (id ∈ ids) then None else s !! id.
Proof.
  unfold DocumentStore.delete_documents.
  induction ids as [|x ids IH]; cbn [foldr].
  - rewrite bool_decide_false by (apply not_elem_of_nil). reflexivity.
  - destruct (decide (x = id)) as [->|Hne].
    + rewrite lookup_delete_eq, bool_decide_true by (by left). reflexivity.
    + rewrite lookup_delete_ne, IH by done.
      destruct (decide (id ∈ ids)) as [Hin|Hnin].
      * rewrite !bool_decide_true by (done || by right). reflexivity.
      * rewrite !bool_decide_false; [done | | done].
        intros Hin. apply elem_of_cons in Hin as [->|Hin]; done.
Qed.

(** What the cleaner leaves of a store: the documents whose id is not one of
    ["0"], ..., [str (count - 1)]. *)
Lemma clear_documents_lookup (s : store) (id : string) :
  DocumentCleaner._clear_documents s !! id
  = if bool_decide (id ∈ cleared_ids s) then None else s !! id.
Proof.
  unfold DocumentCleaner._clear_documents. fold (cleared_ids s).
  destruct (cleared_ids s) as [|x ids] eqn:E.
  - rewrite bool_decide_false by (apply not_elem_of_nil). reflexivity.
  - apply delete_documents_lookup.
Qed.

Lemma clear_documents_empty : DocumentCleaner._clear_documents ∅ = ∅.
Proof. reflexivity. Qed.

(** C2 (as amended): on a text that [orjson.loads] cannot decode the run
    fails with [ValueError("Invalid JSON: ...")] and writes nothing, but the
    cleaner has run before the validator: each store is left as the cleaner
    leaves it, without the documents whose ids are ["0"] to
    [str (count - 1)] and with all others as they were. *)
Theorem invalid_json_fails_after_clearing `{RT : Runtime} (st : Indexing.state)
  (mdl_str msg : string) :
  orjson_loads mdl_str = JSONDecodeError msg ->
  exists st',
    Indexing.run st mdl_str = (st', Err (ValueError ("Invalid JSON: " +:+ msg)))
    /\ (forall id,
          Indexing.ddl_store st' !! id
          = if bool_decide (id ∈ cleared_ids (Indexing.ddl_store st)) then None
            else Indexing.ddl_store st !! id)
    /\ (forall id,
          Indexing.view_store st' !! id
          = if bool_decide (id ∈ cleared_ids (Indexing.view_store st)) then None
            else Indexing.view_store st !! id).
Proof.
  intros Hload.
  exists (Indexing.mk (DocumentCleaner._clear_documents (Indexing.ddl_store st))
            (DocumentCleaner._clear_documents (Indexing.view_store st))).
  split; [|split].
  - unfold Indexing.run, DocumentCleaner.run, MDLValidator.run.
    cbn [map nth]. by rewrite Hload.
  - intros id. apply clear_documents_lookup.
  - intros id. apply clear_documents_lookup.
Qed.

Lemma invalid_json_fails_after_clearing_witness :
  @orjson_loads Sample.runtime "not json" = JSONDecodeError "unexpected character"
  /\ exists st',
       @Indexing.run Sample.runtime used_stores "not json"
       = (st', Err (ValueError "Invalid JSON: unexpected character"))
       /\ Indexing.ddl_store st' !! "0" = None.
Proof.
  split; [reflexivity|].
  destruct (@invalid_json_fails_after_clearing Sample.runtime used_stores
              "not json" "unexpected character" eq_refl)
    as (st' & Hrun & Hddl & _).
  exists st'. split; [exact Hrun|].
  rewrite Hddl. reflexivity.
Defined.

(** C2 (as stated) fails: the run on a text that is not JSON raises, and the
    document the DDL store held under "0" is gone. *)
Lemma invalid_json_run_deletes :
  Indexing.ddl_store used_stores !! "0" = Some old_document
  /\ @orjson_loads Sample.runtime "not json" = JSONDecodeError "unexpected character"
  /\ snd (@Indexing.run Sample.runtime used_stores "not json")
     = Err (ValueError "Invalid JSON: unexpected character")
  /\ Indexing.ddl_store (fst (@Indexing.run Sample.runtime used_stores "not json")) !! "0"
     = None.
Proof.
  split; [reflexivity|]. split; [reflexivity|]. split; [reflexivity|].
  unfold Indexing.run, DocumentCleaner.run, MDLValidator.run.
  cbn [map nth]. change (@orjson_loads Sample.runtime "not json")
    with (JSONDecodeError "unexpected character").
  cbn [fst Indexing.ddl_store]. rewrite clear_documents_lookup. reflexivity.
Qed.

(** ** C9: the description output is filtered to the request *)

(** The keys of [by_name l], when the names are strings. *)
Lemma by_name_elem (l : list value) (d : Py.pydict) (k v : value) :
  SemanticsDescription.by_name l = Ok d ->
  (forall x, x ∈ l -> exists s, Py.getitem x "name" = Ok (VStr s)) ->
  (k, v) ∈ d ->
  exists s, k = VStr s /\ v ∈ l /\ Py.getitem v "name" = Ok (VStr s).
Proof.
  intros Hd Hnames. revert k v.
  unfold SemanticsDescription.by_name in Hd.
  eapply (foldM_invariant
            (fun d => forall k v, (k, v) ∈ d ->
               exists s, k = VStr s /\ v ∈ l /\ Py.getitem v "name" = Ok (VStr s)));
    [| |exact Hd].
  - intros d0 x d1 Hx Hinv Hbody k v Hin.
    bind_inv Hbody as name Hname. unfold Py.pydict_set in Hbody.
    destruct (Py.hashable name); [|discriminate]. injection Hbody as <-.
    destruct (Hnames x Hx) as (s & Hs). rewrite Hs in Hname. injection Hname as <-.
    apply pydict_insert_elem in Hin as [Hin|(-> & [->|[(old & Hold) He]])].
    + by apply Hinv.
    + by exists s.
    + apply equal_str_r in He as ->. by exists s.
  - intros k v Hin. by apply elem_of_nil in Hin.
Qed.

Lemma extract_inv (model pm : value) :
  SemanticsDescription.extract model = Ok pm ->
  exists name cols columns properties,
    pm = VDict [("name", name); ("columns", VList columns); ("properties", properties)]
    /\ Py.getitem model "name" = Ok name
    /\ Py.getitem model "columns" = Ok cols
    /\ SemanticsDescription.column_formatter cols = Ok columns.
Proof.
  unfold SemanticsDescription.extract. intros H.
  bind_inv H as name Hname. bind_inv H as cols Hcols. bind_inv H as columns Hfmt.
  bind_inv H as p Hp. bind_inv H as properties Hprops. injection H as <-.
  by exists name, cols, columns, properties.
Qed.

(** A formatted column is a column of the model that carries no
    "relationship", under the same name. *)
Lemma column_formatter_sound (cols : value) (columns : list value)
  (fc : value) :
  SemanticsDescription.column_formatter cols = Ok columns ->
  fc ∈ columns ->
  exists cs c name,
    Py.iter cols = Ok cs /\ c ∈ cs
    /\ Py.has_key "relationship" c = Ok false
    /\ Py.getitem c "name" = Ok name
    /\ Py.getitem fc "name" = Ok name.
Proof.
  unfold SemanticsDescription.column_formatter. intros H Hin.
  bind_inv H as cs Hcs.
  destruct (comprehension_sound _ _ _ _ _ H Hin) as (c & Hc & Hcond & Hf).
  unfold SemanticsDescription.relation_filter in Hcond.
  bind_inv Hcond as rel Hrel. injection Hcond as Hneg.
  apply negb_true_iff in Hneg as ->.
  bind_inv Hf as name Hname. bind_inv Hf as type Htype. bind_inv Hf as p Hp.
  bind_inv Hf as properties Hprops. injection Hf as <-.
  by exists cs, c, name.
Qed.

(** A picked model is the extract of a model of the MDL whose name is one of
    the selected names. *)
Lemma picked_models_sound (mdl : value) (selected_models : list string)
  (picked : list value) (pm : value) :
  SemanticsDescription.picked_models mdl selected_models = Ok picked ->
  pm ∈ picked ->
  exists ms model n,
    mdl_models mdl = Ok ms /\ model ∈ ms
    /\ n ∈ selected_models
    /\ Py.getitem model "name" = Ok (VStr n)
    /\ SemanticsDescription.extract model = Ok pm.
Proof.
  unfold SemanticsDescription.picked_models, mdl_models. intros H Hin.
  bind_inv H as ms0 Hms0. bind_inv H as ms Hms. rewrite Hms0. cbn [bind].
  destruct (comprehension_sound _ _ _ _ _ H Hin) as (model & Hmodel & Hcond & Hex).
  bind_inv Hcond as name Hname. injection Hcond as Hsel.
  apply existsb_elem_of in Hsel as (n & Hn & He). apply equal_str_l in He as ->.
  exists ms, model, n. repeat split; try done.
  destruct (extract_inv _ _ Hex) as (name' & _ & _ & _ & _ & Hname' & _).
  rewrite (getitem_get _ _ _ (VStr "") Hname') in Hname. by injection Hname as ->.
Qed.

Lemma filter_sound (enriched columns : value)
  (filtered : list value) (col : value) :
  SemanticsDescription._filter enriched columns = Ok filtered ->
  col ∈ filtered ->
  exists cs vc name cname,
    Py.iter columns = Ok cs /\ vc ∈ cs
    /\ Py.getitem vc "name" = Ok name
    /\ Py.getitem col "name" = Ok cname
    /\ Py.equal name cname = true.
Proof.
  unfold SemanticsDescription._filter. intros H Hin.
  bind_inv H as cs Hcs. bind_inv H as valid Hvalid. bind_inv H as es Hes.
  destruct (comprehension_sound _ _ _ _ _ H Hin) as (col' & Hcol' & Hcond & Hf).
  injection Hf as ->.
  bind_inv Hcond as cname Hcname. injection Hcond as Hex.
  apply existsb_elem_of in Hex as (name & Hname & He).
  apply list_elem_of_lookup in Hname as (i & Hi).
  apply mapM_Forall2 in Hvalid.
  destruct (Forall2_lookup_r _ _ _ _ _ Hvalid Hi) as (vc & Hvc & Hget).
  exists cs, vc, name, cname. repeat split; try done.
  by eapply list_elem_of_lookup_2.
Qed.

Lemma picked_model_shape (mdl : value) (selected_models : list string)
  (picked : list value) (pm : value) :
  SemanticsDescription.picked_models mdl selected_models = Ok picked ->
  pm ∈ picked ->
  exists ms model n cols cs columns properties,
    mdl_models mdl = Ok ms /\ model ∈ ms
    /\ n ∈ selected_models
    /\ Py.getitem model "name" = Ok (VStr n)
    /\ Py.getitem model "columns" = Ok cols
    /\ Py.iter cols = Ok cs
    /\ SemanticsDescription.column_formatter cols = Ok columns
    /\ pm = VDict [("name", VStr n); ("columns", VList columns);
                   ("properties", properties)].
Proof.
  intros Hpicked Hin.
  destruct (picked_models_sound _ _ _ _ Hpicked Hin)
    as (ms & model & n & Hms & Hmodel & Hn & Hname & Hex).
  destruct (extract_inv _ _ Hex) as (name & cols & columns & props & -> & Hname' & Hcols & Hfmt).
  rewrite Hname in Hname'. injection Hname' as <-.
  assert (exists cs, Py.iter cols = Ok cs) as (cs & Hcs).
  { unfold SemanticsDescription.column_formatter in Hfmt.
    apply bind_Ok in Hfmt as (cs & Hcs & _). by exists cs. }
  by exists ms, model, n, cols, cs, columns, props.
Qed.

(** C9: when the pipeline returns, every entry [name: data] of its output
    has for [name] a selected name that is the name of a model of the MDL,
    and every column listed in [data["columns"]] bears the name of a column
    of that model that carries no "relationship". *)
Theorem output_is_filtered (mdl : value)
  (selected_models : list string) (picked : list value) (reply out : Py.pydict)
  (name data : value) :
  SemanticsDescription.picked_models mdl selected_models = Ok picked ->
  SemanticsDescription.output reply picked = Ok out ->
  (name, data) ∈ out ->
  exists (n : string) (ms : list value) (model cols : value)
         (cs filtered : list value),
    name = VStr n
    /\ n ∈ selected_models
    /\ mdl_models mdl = Ok ms
    /\ model ∈ ms
    /\ Py.getitem model "name" = Ok (VStr n)
    /\ Py.getitem model "columns" = Ok cols
    /\ Py.iter cols = Ok cs
    /\ Py.getitem data "columns" = Ok (VList filtered)
    /\ forall col, col ∈ filtered ->
         exists c cname n',
           c ∈ cs
           /\ Py.has_key "relationship" c = Ok false
           /\ Py.getitem c "name" = Ok n'
           /\ Py.getitem col "name" = Ok cname
           /\ Py.equal n' cname = true.
Proof.
  intros Hpicked Hout. revert name data.
  unfold SemanticsDescription.output in Hout. bind_inv Hout as models Hmodels.
  assert (forall x, x ∈ picked -> exists s, Py.getitem x "name" = Ok (VStr s)) as Hnames.
  { intros x Hx.
    destruct (picked_model_shape _ _ _ _ Hpicked Hx)
      as (ms & model & n & cols & cs & columns & props & _ & _ & _ & _ & _ & _ & _ & ->).
    by exists n. }
  eapply (foldM_invariant (fun out => forall name data, (name, data) ∈ out -> _));
    [| |exact Hout].
  - intros out0 [nm dt] out1 _ Hinv Hbody name data Hin. cbn [fst snd] in Hbody.
    bind_inv Hbody as keep Hkeep. destruct keep; [|injection Hbody as <-; by apply Hinv].
    bind_inv Hbody as d Hd. bind_inv Hbody as enriched Hen.
    bind_inv Hbody as pm Hpm. bind_inv Hbody as columns_p Hcp.
    bind_inv Hbody as filtered Hfil.
    unfold Py.pydict_set in Hbody.
    destruct (Py.hashable nm) eqn:Hh; [|discriminate]. injection Hbody as <-.
    apply pydict_insert_elem in Hin as [Hin|(-> & Hkey)]; [by apply Hinv|].
    (* the model the entry was filtered against *)
    unfold Py.pydict_getitem in Hpm. rewrite Hh in Hpm.
    destruct (Py.pydict_lookup nm models) as [pm'|] eqn:Hlook; [|discriminate].
    injection Hpm as ->.
    apply pydict_lookup_elem in Hlook as (k' & Hk' & He).
    destruct (by_name_elem _ _ _ _ Hmodels Hnames Hk') as (s & -> & Hpmin & Hpmname).
    apply equal_str_l in He as ->.
    assert (name = VStr s) as ->.
    { destruct Hkey as [->|[_ He]]; [done | by apply equal_str_r in He]. }
    destruct (picked_model_shape _ _ _ _ Hpicked Hpmin)
      as (ms & model & n & cols & cs & columns & props & Hms & Hmodel & Hn & Hname
          & Hcols & Hcs & Hfmt & ->).
    injection Hpmname as ->. injection Hcp as <-.
    exists s, ms, model, cols, cs, filtered. repeat split; try done.
    + destruct dt; try discriminate. injection Hd as <-.
      cbn [Py.getitem]. by rewrite dict_lookup_set, String.eqb_refl.
    + intros col Hcol.
      destruct (filter_sound _ _ _ _ Hfil Hcol)
        as (cs' & vc & vname & cname & Hcs' & Hvc & Hvname & Hcname & He).
      injection Hcs' as <-.
      destruct (column_formatter_sound _ _ _ Hfmt Hvc)
        as (cs'' & c & cn & Hcs'' & Hc & Hrel & Hcn & Hvn).
      rewrite Hcs in Hcs''. injection Hcs'' as <-.
      rewrite Hvname in Hvn. injection Hvn as ->.
      by exists c, cname, cn.
  - intros name data Hin. by apply elem_of_nil in Hin.
Qed.

Lemma output_is_filtered_witness :
  exists picked out,
    SemanticsDescription.picked_models described_mdl ["customers"]
    = Ok picked
    /\ SemanticsDescription.output inventive_reply picked = Ok out
    /\ exists data, out = [(VStr "customers", data)]
       /\ exists filtered,
            Py.getitem data "columns" = Ok (VList filtered)
            /\ forall col, col ∈ filtered -> Py.getitem col "name" = Ok (VStr "id").
Proof.
  eexists. eexists. split; [vm_compute; reflexivity|].
  split; [vm_compute; reflexivity|].
  eexists. split; [reflexivity|].
  match goal with
  | |- context [Py.getitem ?data "columns"] =>
      destruct (output_is_filtered described_mdl ["customers"]
                  _ inventive_reply _ (VStr "customers") data
                  ltac:(vm_compute; reflexivity) ltac:(vm_compute; reflexivity)
                  ltac:(by left))
        as (n & ms & model & cols & cs & filtered & _ & _ & _ & _ & _ & _ & _
            & Hdata & _)
  end.
  exists filtered. split; [exact Hdata|].
  vm_compute in Hdata. injection Hdata as <-.
  intros col Hcol. apply list_elem_of_singleton in Hcol as ->. reflexivity.
Defined.

(** ** C10: a reply that is not JSON *)

Lemma by_name_total (l : list value) :
  (forall x, x ∈ l -> exists s, Py.getitem x "name" = Ok (VStr s)) ->
  exists d, SemanticsDescription.by_name l = Ok d.
Proof.
  unfold SemanticsDescription.by_name. generalize (@nil (value * value)).
  induction l as [|x l IH]; intros d0 Hnames; cbn [foldM].
  - by exists d0.
  - destruct (Hnames x) as (s & Hs); [by left|].
    rewrite Hs. cbn [bind Py.pydict_set Py.hashable].
    apply IH. intros y Hy. apply Hnames. by right.
Qed.

(** C10: when the first reply of the generator, with its newlines replaced
    and its blanks collapsed, is not decodable, [normalize] does not raise:
    the inner [wrapper] returns [{"models": []}] and [normalize] the empty
    mapping, from which [output] makes the empty mapping. *)
Theorem undecodable_reply_gives_empty_output `{RT : Runtime}
  (generate replies : value) (reply msg : string) (mdl : value)
  (selected_models : list string) (picked : list value) :
  Py.get generate "replies" VNone = Ok replies ->
  Py.getindex replies 0 = Ok (VStr reply) ->
  orjson_loads (Str.strip (Str.join " " (Str.words (Str.replace_newlines reply))))
  = JSONDecodeError msg ->
  SemanticsDescription.picked_models mdl selected_models = Ok picked ->
  SemanticsDescription.wrapper (VStr reply) = Ok (VDict [("models", VList [])])
  /\ SemanticsDescription.normalize generate = Ok []
  /\ SemanticsDescription.output [] picked = Ok [].
Proof.
  intros Hreplies Hreply Hload Hpicked.
  assert (SemanticsDescription.wrapper (VStr reply) = Ok (VDict [("models", VList [])]))
    as Hw by (unfold SemanticsDescription.wrapper; by rewrite Hload).
  split; [exact Hw|]. split.
  - unfold SemanticsDescription.normalize. rewrite Hreplies. cbn [bind].
    rewrite Hreply. cbn [bind]. rewrite Hw. reflexivity.
  - unfold SemanticsDescription.output.
    destruct (by_name_total picked) as (d & ->); [|reflexivity].
    intros x Hx.
    destruct (picked_model_shape _ _ _ _ Hpicked Hx)
      as (ms & model & n & cols & cs & columns & props & _ & _ & _ & _ & _ & _ & _ & ->).
    by exists n.
Qed.

Lemma undecodable_reply_gives_empty_output_witness :
  @orjson_loads Sample.runtime "oops, not json" = JSONDecodeError "unexpected character"
  /\ @SemanticsDescription.normalize Sample.runtime
       (VDict [("replies", VList [VStr broken_reply])]) = Ok []
  /\ exists picked,
       SemanticsDescription.picked_models described_mdl ["customers"] = Ok picked
       /\ SemanticsDescription.output [] picked = Ok [].
Proof.
  split; [reflexivity|].
  destruct (@undecodable_reply_gives_empty_output Sample.runtime
              (VDict [("replies", VList [VStr broken_reply])])
              (VList [VStr broken_reply]) broken_reply "unexpected character" described_mdl ["customers"] _
              eq_refl eq_refl eq_refl ltac:(vm_compute; reflexivity))
    as (_ & Hn & Ho).
  split; [exact Hn|]. eexists. split; [vm_compute; reflexivity | exact Ho].
Defined.

(** * Further properties of the code *)

(** ** More on foreign keys *)

(** X1: ONE_TO_MANY is the mirror image of MANY_TO_ONE.  Let the MDL compile
    and hold [{models: [A, B], joinType: ONE_TO_MANY, condition:
    "t1.c1 = t2.c2"}]; then the block of the second model [B] lists
    [FOREIGN KEY (c2) REFERENCES A(pk of A)], the column being read from the
    right side of the condition. *)
Theorem one_to_many_foreign_key `{RT : Runtime} (mdl : value)
  (docs : list Document.t) (models rels : list value) (i : nat) (model r : value)
  (A B jt t1 c1 t2 c2 : string) :
  DDLConverter.run mdl = Ok docs ->
  items mdl "models" = Ok models ->
  items mdl "relationships" = Ok rels ->
  models !! i = Some model ->
  Py.getitem model "name" = Ok (VStr B) ->
  r ∈ rels ->
  Py.getitem r "models" = Ok (VList [VStr A; VStr B]) ->
  Py.getitem r "joinType" = Ok (VStr jt) ->
  Str.upper jt = "ONE_TO_MANY" ->
  Py.getitem r "condition" = Ok (VStr (join_condition t1 c1 t2 c2)) ->
  is_name t1 = true -> is_name c1 = true ->
  is_name t2 = true -> is_name c2 = true ->
  exists d, docs !! i = Some d /\ Document.id d = str i
            /\ table_references models d B c2 A.
Proof.
  intros Hrun Hmodels Hrels Hi Hname Hr Hm Hjt Hu Hc H1 H2 H3 H4.
  eapply (table_block_references mdl docs models rels i 1 model r B A c2);
    try eassumption.
  - intros pk_map. by eapply foreign_key_one_to_many.
  - by eapply fk_column_right.
Qed.

Lemma one_to_many_foreign_key_witness :
  exists docs,
    @DDLConverter.run Sample.runtime ledger_mdl = Ok docs
    /\ exists d, docs !! 1 = Some d /\ Document.id d = str 1
         /\ @table_references Sample.runtime [customers_model; orders_model] d
              "orders" "customer_id" "customers".
Proof.
  eexists. split; [vm_compute; reflexivity|].
  eapply (@one_to_many_foreign_key Sample.runtime ledger_mdl _
            [customers_model; orders_model] [customers_orders] 1 orders_model
            customers_orders "customers" "orders" "one_to_many" "customers" "id"
            "orders" "customer_id");
    try reflexivity.
  by left.
Defined.

(** X2: a relationship between two other tables adds nothing to a table,
    and the loop does not even read its "joinType" or "condition": they may
    be missing or malformed. *)
Theorem unrelated_table_gets_no_constraint `{RT : Runtime} (pk_map : Py.pydict)
  (acc : list string) (r : value) (A B t : string) :
  Py.getitem r "models" = Ok (VList [VStr A; VStr B]) ->
  t <> A -> t <> B ->
  DDLConverter.foreign_key pk_map (VStr t) acc r = Ok acc.
Proof.
  intros Hm HA HB. unfold DDLConverter.foreign_key, and_then.
  rewrite Hm. cbn [bind Py.getindex lookup list_lookup Py.contains existsb].
  assert (Py.equal (VStr A) (VStr t) = false) as EA by (apply equal_str_ne; congruence).
  assert (Py.equal (VStr B) (VStr t) = false) as EB by (apply equal_str_ne; congruence).
  by rewrite (equal_str_ne t A HA), (equal_str_ne t B HB), EA, EB.
Qed.

Lemma unrelated_table_gets_no_constraint_witness :
  Py.getitem bare_pair "joinType" = Err (KeyError (VStr "joinType"))
  /\ @DDLConverter.foreign_key Sample.runtime [] (VStr "products") ["id int"] bare_pair
     = Ok ["id int"].
Proof.
  split; [reflexivity|].
  by apply (@unrelated_table_gets_no_constraint Sample.runtime [] ["id int"]
              bare_pair "orders" "customers" "products").
Defined.

(** X3: a join type other than the three the loop tests for (in any letter
    case) adds a constraint to no table, whichever it is, and the condition
    is never read. *)
Theorem unknown_join_type_gets_no_constraint `{RT : Runtime} (pk_map : Py.pydict)
  (acc : list string) (r : value) (A B jt t : string) :
  Py.getitem r "models" = Ok (VList [VStr A; VStr B]) ->
  Py.getitem r "joinType" = Ok (VStr jt) ->
  Str.upper jt <> "MANY_TO_ONE" ->
  Str.upper jt <> "ONE_TO_MANY" ->
  Str.upper jt <> "ONE_TO_ONE" ->
  DDLConverter.foreign_key pk_map (VStr t) acc r = Ok acc.
Proof.
  intros Hm Hjt H1 H2 H3. unfold DDLConverter.foreign_key, and_then.
  rewrite Hm, !(join_type_is_upper _ _ _ Hjt).
  apply String.eqb_neq in H1, H2, H3. rewrite H1, H2, H3.
  cbn [bind Py.getindex lookup list_lookup Py.contains].
  destruct (Py.equal (VStr t) (VStr A)); cbn [bind];
    destruct (Py.equal (VStr t) (VStr B)); cbn [bind];
    by destruct (existsb _ _).
Qed.

Lemma unknown_join_type_gets_no_constraint_witness :
  Py.getitem many_to_many "condition" = Err (KeyError (VStr "condition"))
  /\ @DDLConverter.foreign_key Sample.runtime [] (VStr "orders") ["id int"] many_to_many
     = Ok ["id int"].
Proof.
  split; [reflexivity|].
  by apply (@unknown_join_type_gets_no_constraint Sample.runtime [] ["id int"]
              many_to_many "orders" "customers" "MANY_TO_MANY" "orders").
Defined.

(** X4: in the block of every model the constraint lines follow all the
    column lines, and they come in the order of the relationship list: the
    body is the lines of the column loop followed by what each relationship
    contributes, relationship by relationship. *)
Theorem constraints_follow_columns `{RT : Runtime} (mdl : value)
  (docs : list Document.t) (models rels : list value) (i : nat) (model : value) :
  DDLConverter.run mdl = Ok docs ->
  items mdl "models" = Ok models ->
  items mdl "relationships" = Ok rels ->
  models !! i = Some model ->
  exists (d : Document.t) (sms columns : list value) (pk_map : Py.pydict)
         (sm name properties : value) (column_lines : list string)
         (constraints : list (list string)),
    docs !! i = Some d
    /\ mapM DDLConverter.semantic_model models = Ok sms
    /\ DDLConverter.primary_keys_map sms = Ok pk_map
    /\ sms !! i = Some sm
    /\ Py.getitem sm "name" = Ok name
    /\ Py.getitem sm "properties" = Ok properties
    /\ Py.getitem sm "columns" = Ok (VList columns)
    /\ foldM (DDLConverter.column_ddl sm) columns [] = Ok column_lines
    /\ mapM (DDLConverter.foreign_key pk_map name []) rels = Ok constraints
    /\ Document.content d
       = nl +:+ "/* " +:+ orjson_dumps properties +:+ " */" +:+ nl
         +:+ "CREATE TABLE " +:+ fmt name +:+ " (" +:+ nl +:+ "  "
         +:+ Str.join line_sep (column_lines ++ concat constraints) +:+ nl +:+ ");".
Proof.
  intros Hrun Hmodels Hrels Hi.
  destruct (run_inv _ _ Hrun) as (relationships & models' & sms & ms & vs & pk_map
    & tables & metric_tables & view_ddls & Hrel & Hmodels' & _ & _
    & Hsms & Hpk & Htables & _ & _ & ->).
  rewrite Hmodels in Hmodels'. injection Hmodels' as <-.
  unfold items in Hrels. rewrite Hrel in Hrels. cbn [bind] in Hrels.
  destruct (mapM_lookup _ _ _ _ _ Hsms Hi) as (sm & Hsm & Hsem).
  destruct (mapM_lookup _ _ _ _ _ Htables Hsm) as (block & Hblock & Hcreate).
  destruct (semantic_model_fields _ _ Hsem) as (n & props & cols & pkv & -> & _ & _).
  apply create_table_semantic in Hcreate
    as (column_lines & rs & exts & Hlines & Hrs & Hexts & ->).
  rewrite Hrels in Hrs. injection Hrs as <-.
  eexists _, sms, cols, pk_map, _, n, props, column_lines, exts.
  split.
  { rewrite documents_lookup, lookup_app_l by (apply lookup_lt_Some in Hblock; lia).
    by rewrite Hblock. }
  repeat split; try eassumption; reflexivity.
Qed.

Lemma constraints_follow_columns_witness :
  exists docs d,
    @DDLConverter.run Sample.runtime shop_mdl = Ok docs
    /\ docs !! 0 = Some d
    /\ Document.content d
       = nl +:+ "/* " +:+ Sample.dumps (VDict [("description", VStr "placed orders")])
         +:+ " */" +:+ nl +:+ "CREATE TABLE orders (" +:+ nl +:+ "  "
         +:+ Str.join line_sep
               ["order_id int PRIMARY KEY"; "customer_id int";
                "FOREIGN KEY (customer_id) REFERENCES customers(id)"]
         +:+ nl +:+ ");".
Proof.
  eexists. eexists. split; [vm_compute; reflexivity|].
  match goal with
  | |- ?docs !! 0 = Some _ /\ _ =>
      destruct (@constraints_follow_columns Sample.runtime shop_mdl docs
                  [orders_model; customers_model] [orders_customers] 0 orders_model
                  ltac:(vm_compute; reflexivity) eq_refl eq_refl eq_refl)
        as (d & _ & _ & _ & _ & _ & _ & _ & _ & Hd & _)
  end.
  split; [reflexivity|]. vm_compute. reflexivity.
Defined.

(** X5: a condition written without blanks around the equals sign is not
    split: read from its left side it gives the column ["c1=t2"], and read
    from its right side it raises [IndexError]. *)
Theorem unspaced_condition_column (r : value) (t1 c1 t2 c2 : string) :
  Py.getitem r "condition"
  = Ok (VStr (t1 +:+ "." +:+ c1 +:+ "=" +:+ t2 +:+ "." +:+ c2)) ->
  is_name t1 = true -> is_name c1 = true ->
  is_name t2 = true -> is_name c2 = true ->
  DDLConverter.fk_column r 0 = Ok (c1 +:+ "=" +:+ t2)
  /\ DDLConverter.fk_column r 1 = Err IndexError.
Proof.
  intros Hc H1 H2 H3 H4.
  destruct (is_name_spec _ H1) as [D1 B1]. destruct (is_name_spec _ H2) as [D2 B2].
  destruct (is_name_spec _ H3) as [D3 B3]. destruct (is_name_spec _ H4) as [D4 B4].
  unfold DDLConverter.fk_column. rewrite Hc. cbn [bind Py.split].
  rewrite (split_whole " " "= ")
    by (rewrite !has_char_app, B1, B2, B3, B4; reflexivity).
  split; [|reflexivity].
  cbn [Py.nth_str lookup list_lookup bind].
  rewrite (split_first "." "" t1 _ D1).
  replace (c1 +:+ "=" +:+ t2 +:+ "." +:+ c2)
    with ((c1 +:+ "=" +:+ t2) +:+ "." +:+ c2) by (by rewrite !append_assoc).
  rewrite (split_first "." "" (c1 +:+ "=" +:+ t2) c2)
    by (rewrite !has_char_app, D2, D3; reflexivity).
  reflexivity.
Qed.

Lemma unspaced_condition_column_witness :
  DDLConverter.fk_column unspaced 0 = Ok "customer_id=customers"
  /\ DDLConverter.fk_column unspaced 1 = Err IndexError.
Proof.
  by apply (unspaced_condition_column unspaced "orders" "customer_id" "customers" "id").
Defined.

(** ** The column loop and the model loop *)

Lemma column_ddl_step `{RT : Runtime} (model : value) (acc acc' : list string)
  (column : value) :
  DDLConverter.column_ddl model acc column = Ok acc' ->
  (Py.has_key "relationship" column = Ok true /\ acc' = acc)
  \/ (Py.has_key "relationship" column = Ok false /\ exists line, acc' = acc ++ [line]).
Proof.
  unfold DDLConverter.column_ddl. intros H. bind_inv H as rel Hrel.
  destruct rel; [left; by injection H as <-|]. right. split; [done|].
  bind_inv H as p Hp. bind_inv H as comment Hcomment. bind_inv H as calc Hcalc.
  bind_inv H as comment' Hcomment'. bind_inv H as name Hname.
  bind_inv H as type Htype. bind_inv H as pk Hpk. injection H as <-. eauto.
Qed.

(** X6: the column loop writes exactly one line for every column that does
    not carry "relationship" and none for a column that does. *)
Theorem relationship_columns_are_skipped `{RT : Runtime} (model : value)
  (columns : list value) (lines : list string) :
  foldM (DDLConverter.column_ddl model) columns [] = Ok lines ->
  length lines
  = length (filter (fun c => plain_column c = true) columns).
Proof.
  change (length lines) with (length (@nil string) + length lines) at 1.
  assert (forall acc,
            foldM (DDLConverter.column_ddl model) columns acc = Ok lines ->
            length lines
            = length acc
              + length (filter (fun c => plain_column c = true) columns))
    as Hgen.
  { induction columns as [|c columns IH]; intros acc H; cbn [foldM] in H.
    - injection H as <-. rewrite filter_nil. cbn [length]. lia.
    - bind_inv H as acc' Hstep. apply IH in H.
      destruct (column_ddl_step _ _ _ _ Hstep) as [[Hrel ->]|[Hrel [line ->]]].
      + rewrite filter_cons_False by (unfold plain_column; by rewrite Hrel). exact H.
      + rewrite filter_cons_True by (unfold plain_column; by rewrite Hrel).
        rewrite length_app in H.
        cbn [length] in H |- *. lia. }
  intros H. apply (Hgen [] H).
Qed.

Lemma relationship_columns_are_skipped_witness :
  exists lines,
    foldM (@DDLConverter.column_ddl Sample.runtime orders_model) orders_columns []
    = Ok lines
    /\ length lines = 2.
Proof.
  assert (foldM (@DDLConverter.column_ddl Sample.runtime orders_model) orders_columns []
          = Ok ["order_id int PRIMARY KEY"; "customer_id int"]) as H
    by (vm_compute; reflexivity).
  eexists. split; [exact H|].
  rewrite (@relationship_columns_are_skipped Sample.runtime orders_model
             orders_columns _ H).
  reflexivity.
Defined.

(** X7: a column whose "isCalculated" is true must carry "expression": the
    column loop raises [KeyError("expression")] when it does not, whether or
    not the column has properties. *)
Theorem calculated_column_needs_expression `{RT : Runtime} (model : value)
  (acc : list string) (c : list (string * value)) (flag : value) :
  Py.dict_lookup "relationship" c = None ->
  Py.dict_lookup "isCalculated" c = Some flag ->
  Py.truthy flag = true ->
  Py.dict_lookup "expression" c = None ->
  DDLConverter.column_ddl model acc (VDict c) = Err (KeyError (VStr "expression")).
Proof.
  intros Hrel Hflag Htrue Hexp.
  unfold DDLConverter.column_ddl, and_then, Py.has_key.
  cbn [Py.contains Py.getitem]. rewrite Hrel, Hflag, Hexp. cbn [bind].
  rewrite Htrue.
  by destruct (Py.dict_lookup "properties" c).
Qed.

Lemma calculated_column_needs_expression_witness :
  @DDLConverter.column_ddl Sample.runtime customers_model [] total_column
  = Err (KeyError (VStr "expression")).
Proof.
  by apply (@calculated_column_needs_expression Sample.runtime customers_model []
              [("name", VStr "total"); ("type", VStr "int");
               ("isCalculated", VBool true)] (VBool true)).
Defined.

Lemma mapM_first_error {A B : Type} (f : A -> result B) (good rest : list A)
  (bad : A) (ys : list B) (e : exn) :
  mapM f good = Ok ys -> f bad = Err e -> mapM f (good ++ bad :: rest) = Err e.
Proof.
  revert ys. induction good as [|x good IH]; intros ys Hgood Hbad.
  - cbn [app mapM]. by rewrite Hbad.
  - cbn [app mapM] in Hgood |- *. bind_inv Hgood as y Hy. bind_inv Hgood as ys' Hys.
    rewrite Hy. cbn [bind]. by rewrite (IH _ Hys Hbad).
Qed.

(** X8: [run] first rebuilds every model, and the first model it cannot
    rebuild decides the outcome: the run ends with that model's exception,
    before the relationships, metrics and views are looked into, so nothing
    is compiled.  In particular a model without "primaryKey" ends the run
    with [KeyError("primaryKey")]. *)
Theorem first_bad_model_ends_run `{RT : Runtime} (mdl relationships views metrics : value)
  (good rest : list value) (bad : value) (sms : list value) (e : exn) :
  Py.getitem mdl "relationships" = Ok relationships ->
  Py.getitem mdl "views" = Ok views ->
  Py.getitem mdl "metrics" = Ok metrics ->
  items mdl "models" = Ok (good ++ bad :: rest) ->
  mapM DDLConverter.semantic_model good = Ok sms ->
  DDLConverter.semantic_model bad = Err e ->
  DDLConverter.run mdl = Err e.
Proof.
  intros Hrels Hviews Hmetrics Hmodels Hgood Hbad.
  unfold DDLConverter.run. rewrite Hrels, Hviews, Hmetrics. cbn [bind].
  unfold items in Hmodels.
  destruct (Py.getitem mdl "models") as [ms|]; [|discriminate].
  cbn [bind] in Hmodels |- *. rewrite Hmodels. cbn [bind].
  by rewrite (mapM_first_error _ _ _ _ _ _ Hgood Hbad).
Qed.

Lemma first_bad_model_ends_run_witness :
  DDLConverter.semantic_model keyless_model = Err (KeyError (VStr "primaryKey"))
  /\ @DDLConverter.run Sample.runtime keyless_mdl = Err (KeyError (VStr "primaryKey")).
Proof.
  split; [reflexivity|].
  by eapply (@first_bad_model_ends_run Sample.runtime keyless_mdl (VInt 7) VNone VNone
               [customers_model] [] keyless_model).
Defined.

(** ** Stores, the cleaner and whole runs *)

Lemma documents_snoc (contents : list string) (c : string) :
  documents (contents ++ [c])
  = documents contents
    ++ [Document.mk (str (length contents)) [("id", str (length contents))] c].
Proof.
  unfold documents. rewrite imap_app. cbn [imap]. by rewrite Nat.add_0_r.
Qed.

Lemma written_snoc (contents : list string) (c : string) :
  written (contents ++ [c])
  = <[str (length contents) :=
        Document.mk (str (length contents)) [("id", str (length contents))] c]>
      (written contents).
Proof.
  unfold written, DocumentStore.write_documents.
  by rewrite documents_snoc, foldl_app.
Qed.

Lemma str_inj (i j : nat) : str i = str j -> i = j.
Proof. unfold str. apply (inj pretty). Qed.

(** What a writer leaves in an empty store: document [i] under [str i]. *)
Lemma written_lookup (contents : list string) (i : nat) :
  written contents !! str i
  = (fun c => Document.mk (str i) [("id", str i)] c) <$> contents !! i.
Proof.
  induction contents as [|c contents IH] using rev_ind.
  - reflexivity.
  - rewrite written_snoc.
    destruct (decide (i = length contents)) as [->|Hne].
    + by rewrite lookup_insert_eq, lookup_app_r, Nat.sub_diag.
    + rewrite lookup_insert_ne by (intros E; by apply str_inj in E).
      rewrite IH. destruct (decide (i < length contents)) as [Hlt|Hge].
      * by rewrite lookup_app_l.
      * rewrite !lookup_ge_None_2; [done | rewrite length_app; cbn; lia | lia].
Qed.

Lemma written_lookup_other (contents : list string) (id : string) :
  (forall i, i < length contents -> id <> str i) ->
  written contents !! id = None.
Proof.
  induction contents as [|c contents IH] using rev_ind; intros Hid.
  - reflexivity.
  - rewrite length_app in Hid. cbn [length] in Hid.
    rewrite written_snoc, lookup_insert_ne by (intros E; apply (Hid (length contents)); [lia|done]).
    apply IH. intros i Hi. apply Hid. lia.
Qed.

Lemma written_size (contents : list string) :
  DocumentStore.count_documents (written contents) = length contents.
Proof.
  unfold DocumentStore.count_documents.
  induction contents as [|c contents IH] using rev_ind.
  - reflexivity.
  - rewrite written_snoc, map_size_insert_None, IH.
    + rewrite length_app. cbn [length]. lia.
    + by rewrite written_lookup, lookup_ge_None_2.
Qed.

Lemma cleaner_empties_written_store_aux (contents : list string) :
  DocumentCleaner._clear_documents (written contents) = ∅.
Proof.
  apply map_eq. intros id.
  rewrite clear_documents_lookup, lookup_empty.
  case_bool_decide as Hin; [done|].
  apply written_lookup_other. intros i Hi ->. apply Hin.
  unfold cleared_ids. rewrite written_size.
  apply list_elem_of_fmap. exists i. split; [done|].
  apply elem_of_seq. lia.
Qed.

(** X9: writing the documents of a converter into an empty store and
    reading them back: the store counts as many documents as were written,
    document [i] is found under the id [str i], and the cleaner then empties
    the store, because the ids it deletes, ["0"] to [str (count - 1)], are
    exactly the ids the converters give out. *)
Theorem written_store_round_trip (contents : list string) :
  DocumentStore.count_documents (written contents) = length contents
  /\ (forall i c, contents !! i = Some c ->
        written contents !! str i = Some (Document.mk (str i) [("id", str i)] c))
  /\ DocumentCleaner._clear_documents (written contents) = ∅.
Proof.
  split; [apply written_size|]. split; [|apply cleaner_empties_written_store_aux].
  intros i c Hi. by rewrite written_lookup, Hi.
Qed.

(** X10: a run that succeeds on stores left by an earlier run of this
    pipeline replaces their contents: each store ends up holding what its
    writer wrote into the emptied store, and the run reports the two numbers
    of documents written. *)
Theorem rerun_replaces_documents `{RT : Runtime} (old_ddl old_views : list string)
  (mdl_str : string) (mdl : value) (ddl_docs view_docs : list Document.t) :
  MDLValidator.run mdl_str = Ok mdl ->
  (let* docs := DDLConverter.run mdl in embedder docs) = Ok ddl_docs ->
  (let* docs := ViewConverter.run mdl in embedder docs) = Ok view_docs ->
  Indexing.run (Indexing.mk (written old_ddl) (written old_views)) mdl_str
  = (Indexing.mk (DocumentStore.write_documents ddl_docs ∅)
       (DocumentStore.write_documents view_docs ∅),
     Ok (length ddl_docs, length view_docs)).
Proof.
  intros Hvalid Hddl Hview.
  unfold Indexing.run, DocumentCleaner.run, Indexing.branch.
  cbn [map nth Indexing.ddl_store Indexing.view_store].
  rewrite !cleaner_empties_written_store_aux, Hvalid, Hddl, Hview. reflexivity.
Qed.

Lemma rerun_replaces_documents_witness :
  exists ddl_docs view_docs,
    @Indexing.run Sample.runtime (Indexing.mk (written ["stale"; "older"]) (written []))
      shop_text
    = (Indexing.mk (DocumentStore.write_documents ddl_docs ∅)
         (DocumentStore.write_documents view_docs ∅), Ok (4, 1)).
Proof.
  assert (@MDLValidator.run Sample.runtime shop_text = Ok shop_mdl) as H1
    by (vm_compute; reflexivity).
  assert (exists d, (let* docs := @DDLConverter.run Sample.runtime shop_mdl in
                     @embedder Sample.runtime docs) = Ok d /\ length d = 4)
    as (d & H2 & L2) by (eexists; split; [vm_compute; reflexivity | reflexivity]).
  assert (exists d, (let* docs := @ViewConverter.run Sample.runtime shop_mdl in
                     @embedder Sample.runtime docs) = Ok d /\ length d = 1)
    as (v & H3 & L3) by (eexists; split; [vm_compute; reflexivity | reflexivity]).
  exists d, v.
  rewrite (@rerun_replaces_documents Sample.runtime ["stale"; "older"] [] shop_text
             shop_mdl d v H1 H2 H3).
  by rewrite L2, L3.
Defined.

(** ** The validator followed by the converters *)

Lemma validator_run_dict `{RT : Runtime} (mdl : string) (d : list (string * value)) :
  orjson_loads mdl = Loaded (VDict d) ->
  MDLValidator.run mdl
  = Ok (VDict (ensure "metrics" (ensure "relationships" (ensure "views"
                 (ensure "models" d))))).
Proof.
  intros H. unfold MDLValidator.run. rewrite H.
  repeat (rewrite default_key_dict; cbn [bind]). reflexivity.
Qed.

Lemma ensure_present (k : string) (d : list (string * value)) (v : value) :
  Py.dict_lookup k d = Some v -> ensure k d = d.
Proof. intros H. unfold ensure. by rewrite H. Qed.

Lemma validated_lookup (k : string) (d : list (string * value)) :
  k ∈ sections ->
  Py.dict_lookup k (ensure "metrics" (ensure "relationships" (ensure "views"
                      (ensure "models" d))))
  = Some (default (VList []) (Py.dict_lookup k d)).
Proof.
  intros Hk. unfold sections in Hk. rewrite !ensure_lookup.
  repeat (apply elem_of_cons in Hk as [->|Hk]; [reflexivity|]).
  by apply elem_of_nil in Hk.
Qed.

(** X11: the validator is idempotent: a text that parses to what the
    validator returned is returned as it is. *)
Theorem validator_is_idempotent `{RT : Runtime} (mdl mdl' : string)
  (d : list (string * value)) (v : value) :
  orjson_loads mdl = Loaded (VDict d) ->
  MDLValidator.run mdl = Ok v ->
  orjson_loads mdl' = Loaded v ->
  MDLValidator.run mdl' = Ok v.
Proof.
  intros Hload Hrun Hload'.
  rewrite (validator_run_dict _ _ Hload) in Hrun. injection Hrun as <-.
  rewrite (validator_run_dict _ _ Hload').
  assert (forall k, k ∈ sections ->
            ensure k (ensure "metrics" (ensure "relationships" (ensure "views"
                        (ensure "models" d))))
            = ensure "metrics" (ensure "relationships" (ensure "views"
                        (ensure "models" d)))) as Hfix.
  { intros k Hk. eapply ensure_present. by apply validated_lookup. }
  rewrite (Hfix "models"), (Hfix "views"), (Hfix "relationships"), (Hfix "metrics");
    [done | unfold sections; set_solver..].
Qed.

Lemma validator_is_idempotent_witness :
  @MDLValidator.run Sample.runtime "{}" = @MDLValidator.run Sample.runtime validated_text
  /\ exists v, @MDLValidator.run Sample.runtime validated_text = Ok v.
Proof.
  assert (exists v, @MDLValidator.run Sample.runtime "{}" = Ok v
                    /\ @orjson_loads Sample.runtime validated_text = Loaded v)
    as (v & Hrun & Hload) by (eexists; split; vm_compute; reflexivity).
  pose proof (@validator_is_idempotent Sample.runtime "{}" validated_text [] v
                eq_refl Hrun Hload) as H.
  split; [by rewrite Hrun, H | by exists v].
Defined.

(** X12: an MDL object whose four sections are missing or empty indexes
    nothing: the validator accepts it and both converters return no
    document. *)
Theorem empty_sections_index_nothing `{RT : Runtime} (mdl_str : string)
  (d : list (string * value)) :
  orjson_loads mdl_str = Loaded (VDict d) ->
  (forall k, k ∈ sections -> default (VList []) (Py.dict_lookup k d) = VList []) ->
  exists mdl,
    MDLValidator.run mdl_str = Ok mdl
    /\ DDLConverter.run mdl = Ok []
    /\ ViewConverter.run mdl = Ok [].
Proof.
  intros Hload Hempty. eexists. split; [by apply validator_run_dict|].
  assert (forall k, k ∈ sections ->
            Py.getitem (VDict (ensure "metrics" (ensure "relationships"
                                 (ensure "views" (ensure "models" d))))) k
            = Ok (VList [])) as Hget.
  { intros k Hk. cbn [Py.getitem]. by rewrite validated_lookup, Hempty. }
  unfold DDLConverter.run, ViewConverter.run.
  rewrite (Hget "models"), (Hget "views"), (Hget "relationships"), (Hget "metrics")
    by (unfold sections; set_solver).
  split; reflexivity.
Qed.

Lemma empty_sections_index_nothing_witness :
  exists mdl,
    @MDLValidator.run Sample.runtime "{}" = Ok mdl
    /\ @DDLConverter.run Sample.runtime mdl = Ok []
    /\ @ViewConverter.run Sample.runtime mdl = Ok [].
Proof.
  apply (@empty_sections_index_nothing Sample.runtime "{}" []); [reflexivity|].
  intros k _. reflexivity.
Defined.

(** ** Views and metrics *)

(** X13: a "views" section that is [null], [false] or [0] splits the two
    converters: the view projector takes it for "no views" and returns no
    document, while the DDL compiler iterates over it and raises
    [TypeError]. *)
Theorem falsy_views_split_the_converters `{RT : Runtime} (mdl views : value) :
  Py.getitem mdl "views" = Ok views ->
  Py.truthy views = false ->
  Py.iter views = Err TypeError ->
  ViewConverter.run mdl = Ok []
  /\ DDLConverter._convert_views views = Err TypeError.
Proof.
  intros Hviews Hfalse Hiter. split.
  - unfold ViewConverter.run. rewrite Hviews. cbn [bind]. by rewrite Hfalse.
  - unfold DDLConverter._convert_views. by rewrite Hiter.
Qed.

Lemma falsy_views_split_the_converters_witness :
  @ViewConverter.run Sample.runtime null_views_mdl = Ok []
  /\ @DDLConverter.run Sample.runtime null_views_mdl = Err TypeError.
Proof.
  destruct (@falsy_views_split_the_converters Sample.runtime null_views_mdl VNone
              eq_refl eq_refl eq_refl) as [Hv Hd].
  split; [exact Hv | reflexivity].
Defined.

(** X14: every view needs a "statement": the view projector ends with
    [KeyError("statement")] at the first view that has none (its properties
    being absent or a dict), and returns no document at all. *)
Theorem view_without_statement `{RT : Runtime} (mdl : value)
  (good rest : list value) (contents : list string) (v : list (string * value)) :
  Py.getitem mdl "views" = Ok (VList (good ++ VDict v :: rest)) ->
  mapM ViewConverter._format good = Ok contents ->
  Py.dict_lookup "statement" v = None ->
  (Py.dict_lookup "properties" v = None
   \/ exists p, Py.dict_lookup "properties" v = Some (VDict p)) ->
  ViewConverter.run mdl = Err (KeyError (VStr "statement")).
Proof.
  intros Hviews Hgood Hst Hprops.
  assert (ViewConverter._format (VDict v) = Err (KeyError (VStr "statement"))) as Hbad.
  { unfold ViewConverter._format, ViewConverter.property, and_then, Py.has_key.
    cbn [Py.contains Py.getitem]. rewrite Hst.
    destruct Hprops as [->|[p ->]]; cbn [bind]; [reflexivity|].
    rewrite bool_decide_true by eauto. cbn [bind Py.contains Py.getitem].
    destruct (Py.dict_lookup "question" p), (Py.dict_lookup "description" p);
      cbn [bind]; reflexivity. }
  unfold ViewConverter.run. rewrite Hviews. cbn [bind].
  assert (Py.truthy (VList (good ++ VDict v :: rest)) = true) as ->
    by (by destruct good).
  cbn [Py.iter bind]. by rewrite (mapM_first_error _ _ _ _ _ _ Hgood Hbad).
Qed.

Lemma view_without_statement_witness :
  @ViewConverter.run Sample.runtime unstated_views_mdl
  = Err (KeyError (VStr "statement")).
Proof.
  apply (@view_without_statement Sample.runtime unstated_views_mdl [top_view] []
           [@py_str Sample.runtime
              (view_record top_view (VStr "select * from customers"))]
           [("name", VStr "draft")]); try reflexivity.
  by left.
Defined.

Lemma dimension_ddl_line `{RT : Runtime} (d : value) (line : string) :
  DDLConverter.dimension_ddl d = Ok line ->
  exists name type,
    Py.getitem d "name" = Ok name /\ Py.getitem d "type" = Ok type
    /\ line = dimension_line name type.
Proof.
  unfold DDLConverter.dimension_ddl. intros H.
  bind_inv H as name Hn. bind_inv H as type Ht. injection H as <-.
  by exists name, type.
Qed.

Lemma measure_ddl_line `{RT : Runtime} (m : value) (line : string) :
  DDLConverter.measure_ddl m = Ok line ->
  exists name type expression,
    Py.getitem m "name" = Ok name /\ Py.getitem m "type" = Ok type
    /\ Py.getitem m "expression" = Ok expression
    /\ line = measure_line name type expression.
Proof.
  unfold DDLConverter.measure_ddl. intros H.
  bind_inv H as name Hn. bind_inv H as type Ht. bind_inv H as e He.
  injection H as <-. by exists name, type, e.
Qed.

(** X15: the table of a metric lists one commented line per dimension, in
    order, then one commented line per measure, in order, and nothing else:
    no line is marked as a key and no constraint follows. *)
Theorem metric_table_lines `{RT : Runtime} (metric : value) (content : string) :
  DDLConverter.metric_table metric = Ok content ->
  exists (name base : value) (dimensions measures : list value)
         (dimension_lines measure_lines : list string),
    Py.getitem metric "name" = Ok name
    /\ Py.getitem metric "baseObject" = Ok base
    /\ items metric "dimension" = Ok dimensions
    /\ items metric "measure" = Ok measures
    /\ Forall2 (fun d line =>
                  exists n t, Py.getitem d "name" = Ok n /\ Py.getitem d "type" = Ok t
                              /\ line = dimension_line n t)
         dimensions dimension_lines
    /\ Forall2 (fun m line =>
                  exists n t e, Py.getitem m "name" = Ok n /\ Py.getitem m "type" = Ok t
                                /\ Py.getitem m "expression" = Ok e
                                /\ line = measure_line n t e)
         measures measure_lines
    /\ content
       = nl +:+ "/* This table is a metric */" +:+ nl +:+ "/* Metric Base Object: "
         +:+ fmt base +:+ " */" +:+ nl +:+ "CREATE TABLE " +:+ fmt name +:+ " ("
         +:+ nl +:+ "  " +:+ Str.join line_sep (dimension_lines ++ measure_lines)
         +:+ nl +:+ ");".
Proof.
  unfold DDLConverter.metric_table. intros H.
  bind_inv H as name Hname. bind_inv H as ds0 Hds0. bind_inv H as ds Hds.
  bind_inv H as dims Hdims. bind_inv H as ms0 Hms0. bind_inv H as ms Hms.
  bind_inv H as meas Hmeas. bind_inv H as base Hbase. injection H as <-.
  exists name, base, ds, ms, dims, meas.
  unfold items. rewrite Hds0, Hms0. cbn [bind].
  repeat split; try done.
  - apply mapM_Forall2 in Hdims. eapply Forall2_impl; [exact Hdims|].
    intros d line Hd. destruct (dimension_ddl_line _ _ Hd) as (n & t & ? & ? & ?).
    by exists n, t.
  - apply mapM_Forall2 in Hmeas. eapply Forall2_impl; [exact Hmeas|].
    intros m line Hm. destruct (measure_ddl_line _ _ Hm) as (n & t & e & ? & ? & ? & ?).
    by exists n, t, e.
Qed.

Lemma metric_table_lines_witness :
  @DDLConverter.metric_table Sample.runtime revenue_metric
  = Ok (nl +:+ "/* This table is a metric */" +:+ nl
        +:+ "/* Metric Base Object: orders */" +:+ nl +:+ "CREATE TABLE revenue ("
        +:+ nl +:+ "  "
        +:+ Str.join line_sep
              [@dimension_line Sample.runtime (VStr "day") (VStr "date");
               @measure_line Sample.runtime (VStr "total") (VStr "int")
                 (VStr "sum(amount)")]
        +:+ nl +:+ ");").
Proof.
  destruct (@DDLConverter.metric_table Sample.runtime revenue_metric) as [content|e] eqn:E;
    [|by vm_compute in E].
  destruct (@metric_table_lines Sample.runtime revenue_metric content E)
    as (name & base & ds & ms & dl & ml & _).
  vm_compute in E. injection E as <-. vm_compute. reflexivity.
Defined.
